(** * nba_shotchart: shot retrieval, court drawing and shot overlay

    A shallow embedding of [nba_shotchart.py].  The three functions of the
    script, [get_player_shotchartdetail], [draw_court] and [plot_shot_chart],
    are translated statement by statement.  The libraries they call are
    modelled only as far as the script uses them:

    - [nba_api]: the endpoints are fields of a [Provider] record, and every
      call to one is logged in a request trace;
    - [pandas]: a frame is the list of its rows, a boolean mask is a list of
      booleans, [.loc[mask, col]] keeps the column values of the rows whose
      mask entry is true, [.iloc[0]] raises [IndexError] on an empty series;
    - [matplotlib]: an [Axes] object carries its view limits, the two
      autoscale switches, its decorations and its artists in the order they
      were added; a patch constructor raises for a colour matplotlib does
      not accept; the objects live in a store and are reached by reference.

    Numbers are rationals: every literal of the script (7.5, -47.5, 422.5,
    ...) is a dyadic rational, so [Q] represents it exactly. *)

From Stdlib Require Import QArith Qminmax Ascii String.
From stdpp Require Import gmap strings list.

Local Open Scope string_scope.
Local Open Scope Q_scope.
Local Open Scope list_scope.

(** ** Python exceptions *)

Module py.

(** An exception is its class name and its message. *)
Record PyExn : Type := MkExn { exn_class : string; exn_msg : string }.

Definition ValueError (msg : string) : PyExn := MkExn "ValueError" msg.
Definition IndexError (msg : string) : PyExn := MkExn "IndexError" msg.

(** [seq[i]] on a Python list. *)
Definition getitem {A : Type} (l : list A) (i : nat) : PyExn + A :=
  match l !! i with
  | Some x => inr x
  | None => inl (IndexError "list index out of range")
  end.

End py.
Export py.

(** ** pandas, as far as the script uses it *)

Module pd.

(** [frame[col] == v]: the element-wise comparison, a boolean mask. *)
Definition eq_mask {R : Type} (col : R → string) (frame : list R)
    (v : string) : list bool :=
  map (λ r, bool_decide (col r = v)) frame.

(** The rows of [frame] whose mask entry is [True], in frame order.  The
    script only ever applies a mask to the frame it was computed from, so the
    two lists have the same length. *)
Fixpoint select {R : Type} (mask : list bool) (frame : list R) : list R :=
  match mask, frame with
  | b :: mask', r :: frame' =>
      if b then r :: select mask' frame' else select mask' frame'
  | _, _ => []
  end.

(** [frame.loc[mask, col]]: the values of column [col] on the selected
    rows. *)
Definition loc {R A : Type} (frame : list R) (mask : list bool)
    (col : R → A) : list A :=
  map col (select mask frame).

(** [series.iloc[0]]. *)
Definition iloc0 {A : Type} (series : list A) : PyExn + A :=
  match series with
  | x :: _ => inr x
  | [] => inl (IndexError "single positional indexer is out-of-bounds")
  end.

End pd.

(** ** The statistics provider (nba_api) *)

Module nba.

(** An entry of the static player directory: the keys the script reads. *)
Record Player : Type := MkPlayer { id : Z; full_name : string }.

(** A row of the career frame: the columns the script reads. *)
Record CareerRow : Type := MkCareerRow { SEASON_ID : string; TEAM_ID : Z }.

(** The keyword arguments of [ShotChartDetail]. *)
Record ShotQuery : Type := MkShotQuery {
  team_id : Z;
  player_id : Z;
  season_type_all_star : string;
  season_nullable : string;
  context_measure_simple : string
}.

(** The calls the script makes to the provider. *)
Inductive Request : Type :=
| ReqPlayers
| ReqCareer (player_id : Z)
| ReqShotChart (q : ShotQuery).

(** The provider: the directory, and for each endpoint either the
    exception the call raises or the frames [get_data_frames()] returns.
    [frame] is the type of the shot-chart frames, which the retriever
    hands over without looking inside. *)
Record Provider (frame : Type) : Type := MkProvider {
  get_players : list Player;
  PlayerCareerStats : Z → PyExn + list (list CareerRow);
  ShotChartDetail : ShotQuery → PyExn + list frame
}.
Arguments get_players {frame} _.
Arguments PlayerCareerStats {frame} _ _.
Arguments ShotChartDetail {frame} _ _.

(** Computations that talk to the provider: they extend the request trace
    and either return or raise. *)
Definition Fetch (A : Type) : Type :=
  list Request → (PyExn + A) * list Request.

Definition fetch_ret {A : Type} (a : A) : Fetch A := λ tr, (inr a, tr).

Definition fetch_bind {A B : Type} (m : Fetch A) (k : A → Fetch B)
    : Fetch B :=
  λ tr, match m tr with
        | (inr a, tr') => k a tr'
        | (inl e, tr') => (inl e, tr')
        end.

Definition raise {A : Type} (e : PyExn) : Fetch A := λ tr, (inl e, tr).

(** A call that reaches the provider. *)
Definition request {A : Type} (r : Request) (answer : PyExn + A)
    : Fetch A :=
  λ tr, (answer, tr ++ [r]).

(** A local operation that may raise. *)
Definition lift {A : Type} (x : PyExn + A) : Fetch A := λ tr, (x, tr).

End nba.
Export nba.

#[global] Instance fetch_mret : MRet Fetch := @fetch_ret.
#[global] Instance fetch_mbind : MBind Fetch := λ A B k m, fetch_bind m k.

Section retriever.

Context {frame : Type}.
Variable provider : Provider frame.

(** Lines 35-43: the shot-chart query and the pair returned. *)
Definition fetch_shotchart (team_id player_id : Z) (season_id : string)
    : Fetch (frame * frame) :=
  let q := MkShotQuery team_id player_id "Regular Season" season_id "FGA" in
  shotchart ← request (ReqShotChart q) (ShotChartDetail provider q);
  shots ← lift (getitem shotchart 0);
  league ← lift (getitem shotchart 1);
  mret (shots, league).

(** Lines 12-43. *)
Definition get_player_shotchartdetail (player_name season_id : string)
    : Fetch (frame * frame) :=
  nba_players ← request ReqPlayers (inr (get_players provider));
  match find (λ p, bool_decide (full_name p = player_name)) nba_players with
  | None => raise (ValueError ("Player '" +:+ player_name +:+ "' not found."))
  | Some player =>
      frames ← request (ReqCareer (id player))
                       (PlayerCareerStats provider (id player));
      career_df ← lift (getitem frames 0);
      team_id ← lift (pd.iloc0 (pd.loc career_df
                         (pd.eq_mask SEASON_ID career_df season_id) TEAM_ID));
      fetch_shotchart team_id (id player) season_id
  end.

End retriever.

(** ** matplotlib, as far as the script uses it *)

Module mpl.

(** [matplotlib.patches]: the three patch classes the script builds, with
    the arguments it passes.  [Rectangle] and [Circle] are filled unless
    [fill=False] is given; an [Arc] is never filled. *)
Inductive Patch : Type :=
| Circle (xy : Q * Q) (radius : Q) (linewidth : Q) (color : string)
    (fill : bool)
| Rectangle (xy : Q * Q) (width height : Q) (linewidth : Q)
    (color : string) (fill : bool)
| Arc (xy : Q * Q) (width height : Q) (theta1 theta2 : Q) (linewidth : Q)
    (color : string).

Definition patch_color (p : Patch) : string :=
  match p with
  | Circle _ _ _ color _ => color
  | Rectangle _ _ _ _ color _ => color
  | Arc _ _ _ _ _ _ color => color
  end.

Definition patch_linewidth (p : Patch) : Q :=
  match p with
  | Circle _ _ lw _ _ => lw
  | Rectangle _ _ _ lw _ _ => lw
  | Arc _ _ _ _ _ lw _ => lw
  end.

(** The keyword arguments of [Axes.scatter]. *)
Record ScatterStyle : Type := MkStyle {
  sc_c : option string;
  sc_edgecolors : option string;
  sc_facecolors : option string;
  sc_marker : string;
  sc_s : Q;
  sc_linewidths : Q;
  sc_label : string
}.

(** What [scatter] adds to the axes: one point per (x, y) pair. *)
Record PathCollection : Type := MkCollection {
  offsets : list (Q * Q);
  style : ScatterStyle
}.

(** An artist on an axes: a patch with its label, a scatter collection, or
    anything else (a line, a text, another kind of collection), of which
    only the entry it has in a legend, if it has one, matters here. *)
Inductive Artist : Type :=
| PatchArtist (p : Patch) (label : string)
| CollectionArtist (c : PathCollection)
| OtherArtist (legend_entry : option string).

(** An axes: its view, its decorations, its artists in the order they were
    added, and the labels of its containers (bar plots and the like). *)
Record Axes : Type := MkAxes {
  xlim : Q * Q;
  ylim : Q * Q;
  autoscalex_on : bool;
  autoscaley_on : bool;
  title : string;
  title_fontsize : option Q;
  labelbottom : bool;
  labelleft : bool;
  children : list Artist;
  containers : list string;
  legend_ : option (list string)
}.

Definition as_patch (a : Artist) : option Patch :=
  match a with
  | PatchArtist p _ => Some p
  | _ => None
  end.

Definition as_collection (a : Artist) : option PathCollection :=
  match a with
  | CollectionArtist c => Some c
  | _ => None
  end.

(** [ax.patches] and [ax.collections]: the artists of each kind, in order. *)
Definition patches (ax : Axes) : list Patch :=
  omap as_patch (children ax).

Definition collections (ax : Axes) : list PathCollection :=
  omap as_collection (children ax).

(** A freshly created axes. *)
Definition new_axes : Axes :=
  MkAxes (0, 1) (0, 1) true true "" None true true [] [] None.

(** [set_xlim(left, right)]: sets the view limits and, [auto] being
    [False] by default, switches autoscaling of the x-axis off. *)
Definition set_xlim (left right : Q) (ax : Axes) : Axes :=
  MkAxes (left, right) (ylim ax) false (autoscaley_on ax)
    (title ax) (title_fontsize ax) (labelbottom ax) (labelleft ax)
    (children ax) (containers ax) (legend_ ax).

Definition set_ylim (bottom top : Q) (ax : Axes) : Axes :=
  MkAxes (xlim ax) (bottom, top) (autoscalex_on ax) false
    (title ax) (title_fontsize ax) (labelbottom ax) (labelleft ax)
    (children ax) (containers ax) (legend_ ax).

Definition set_title (label : string) (fontsize : Q) (ax : Axes) : Axes :=
  MkAxes (xlim ax) (ylim ax) (autoscalex_on ax) (autoscaley_on ax)
    label (Some fontsize) (labelbottom ax) (labelleft ax)
    (children ax) (containers ax) (legend_ ax).

Definition tick_params (bottom left : bool) (ax : Axes) : Axes :=
  MkAxes (xlim ax) (ylim ax) (autoscalex_on ax) (autoscaley_on ax)
    (title ax) (title_fontsize ax) bottom left
    (children ax) (containers ax) (legend_ ax).

(** [add_patch] appends the patch to the artists; it does not rescale the
    view.  The patches of the script are built without a label, and the
    label of such a patch is the empty string. *)
Definition add_patch (p : Patch) (ax : Axes) : Axes :=
  MkAxes (xlim ax) (ylim ax) (autoscalex_on ax) (autoscaley_on ax)
    (title ax) (title_fontsize ax) (labelbottom ax) (labelleft ax)
    (children ax ++ [PatchArtist p ""]) (containers ax) (legend_ ax).

(** A label is shown in the legend unless it is empty or starts with an
    underscore. *)
Definition legend_shows (l : string) : bool :=
  match l with
  | EmptyString => false
  | String a _ => negb (bool_decide (a = "_"%char))
  end.

(** The entry an artist has in the legend, if any. *)
Definition legend_entry (a : Artist) : option string :=
  match a with
  | PatchArtist _ label => if legend_shows label then Some label else None
  | CollectionArtist c =>
      if legend_shows (sc_label (style c)) then Some (sc_label (style c))
      else None
  | OtherArtist entry => entry
  end.

(** [legend()]: the entries of the artists, in the order the artists were
    added, followed by those of the containers. *)
Definition legend (ax : Axes) : Axes :=
  MkAxes (xlim ax) (ylim ax) (autoscalex_on ax) (autoscaley_on ax)
    (title ax) (title_fontsize ax) (labelbottom ax) (labelleft ax)
    (children ax) (containers ax)
    (Some (omap legend_entry (children ax)
           ++ List.filter legend_shows (containers ax))).

(** What the embedding takes from matplotlib without defining it: the view
    limits autoscaling derives from the artists of an axes (data limits plus
    margins), which colour strings it accepts besides the ones listed in
    [named_colors], and the message of the [ValueError] it raises for a
    string it rejects. *)
Record Library : Type := MkLibrary {
  data_limits : list Artist → (Q * Q) * (Q * Q);
  other_colors : string → bool;
  color_error : string → string
}.

(** Some of the colour names matplotlib knows: the single-letter base
    colours and their full names. *)
Definition named_colors : list string :=
  ["b"; "g"; "r"; "c"; "m"; "y"; "k"; "w";
   "blue"; "green"; "red"; "cyan"; "magenta"; "yellow"; "black"; "white"].

Section library.

Variable lib : Library.

(** [matplotlib.colors.is_color_like], on strings. *)
Definition is_color_like (c : string) : bool :=
  bool_decide (c ∈ named_colors) || other_colors lib c.

(** Calling a patch class: the constructor sets the colour, and that raises
    [ValueError] for a string matplotlib does not accept. *)
Definition new_patch (p : Patch) : PyExn + Patch :=
  if is_color_like (patch_color p) then inr p
  else inl (ValueError (color_error lib (patch_color p))).

(** A list display whose elements are constructor calls, evaluated from left
    to right: the first call that raises ends the evaluation. *)
Fixpoint new_patches (calls : list Patch) : PyExn + list Patch :=
  match calls with
  | [] => inr []
  | p :: calls' =>
      match new_patch p with
      | inl e => inl e
      | inr p' =>
          match new_patches calls' with
          | inl e => inl e
          | inr ps => inr (p' :: ps)
          end
      end
  end.

(** Autoscaling moves the limits of an axis only while its switch is on. *)
Definition autoscale_view (ax : Axes) : Axes :=
  let lims := data_limits lib (children ax) in
  MkAxes (if autoscalex_on ax then lims.1 else xlim ax)
    (if autoscaley_on ax then lims.2 else ylim ax)
    (autoscalex_on ax) (autoscaley_on ax)
    (title ax) (title_fontsize ax) (labelbottom ax) (labelleft ax)
    (children ax) (containers ax) (legend_ ax).

(** [scatter(x, y, **style)]: the two coordinate sequences must have the
    same size; the new collection is added and the view autoscaled. *)
Definition scatter (x y : list Q) (st : ScatterStyle) (ax : Axes)
    : PyExn + Axes :=
  if bool_decide (length x = length y) then
    inr (autoscale_view
           (MkAxes (xlim ax) (ylim ax) (autoscalex_on ax) (autoscaley_on ax)
              (title ax) (title_fontsize ax) (labelbottom ax) (labelleft ax)
              (children ax ++ [CollectionArtist (MkCollection (zip x y) st)])
              (containers ax) (legend_ ax)))
  else inl (ValueError "x and y must be the same size").

End library.

End mpl.
Export mpl.

(** ** The interpreter state

    The frames and the axes are objects: the script receives references to
    them, and [plt.gca()] hands out the current axes of the process. *)

(** A row of the shot-chart frame: the columns the script reads. *)
Record ShotRow : Type := MkShotRow {
  LOC_X : Q;
  LOC_Y : Q;
  EVENT_TYPE : string
}.

Record World : Type := MkWorld {
  frames : gmap nat (list ShotRow);
  axes : gmap nat Axes;
  current_axes : option nat
}.

(** A call returns, raises, or (in the model only) meets a reference that
    names no object. *)
Inductive Outcome (A : Type) : Type :=
| Returns (a : A) (w : World)
| Raises (e : PyExn) (w : World)
| NoSuchObject.
Arguments Returns {A} a w.
Arguments Raises {A} e w.
Arguments NoSuchObject {A}.

Definition Plt (A : Type) : Type := World → Outcome A.

Definition plt_ret {A : Type} (a : A) : Plt A := λ w, Returns a w.

Definition plt_bind {A B : Type} (m : Plt A) (k : A → Plt B) : Plt B :=
  λ w, match m w with
       | Returns a w' => k a w'
       | Raises e w' => Raises e w'
       | NoSuchObject => NoSuchObject
       end.

#[global] Instance plt_mret : MRet Plt := @plt_ret.
#[global] Instance plt_mbind : MBind Plt := λ A B k m, plt_bind m k.

(** Replace the axes object behind reference [h]. *)
Definition store_axes (h : nat) (a : Axes) (w : World) : World :=
  MkWorld (frames w) (<[h := a]> (axes w)) (current_axes w).

(** [plt.gca()]: the current axes, created first if there is none. *)
Definition gca : Plt nat :=
  λ w, match current_axes w with
       | Some h => Returns h w
       | None =>
           let h := fresh (dom (axes w)) in
           Returns h (MkWorld (frames w) (<[h := new_axes]> (axes w)) (Some h))
       end.

(** [ax.method(...)] for a method that cannot raise. *)
Definition call (h : nat) (method : Axes → Axes) : Plt unit :=
  λ w, match axes w !! h with
       | Some a => Returns tt (store_axes h (method a) w)
       | None => NoSuchObject
       end.

(** [ax.method(...)] for a method that may raise. *)
Definition call_exn (h : nat) (method : Axes → PyExn + Axes) : Plt unit :=
  λ w, match axes w !! h with
       | Some a =>
           match method a with
           | inr a' => Returns tt (store_axes h a' w)
           | inl e => Raises e w
           end
       | None => NoSuchObject
       end.

(** A local operation that may raise. *)
Definition raising {A : Type} (x : PyExn + A) : Plt A :=
  λ w, match x with
       | inr a => Returns a w
       | inl e => Raises e w
       end.

(** Reading the frame behind a reference. *)
Definition deref (d : nat) : Plt (list ShotRow) :=
  λ w, match frames w !! d with
       | Some df => Returns df w
       | None => NoSuchObject
       end.

(** [for x in l: body(x)]. *)
Fixpoint for_each {A : Type} (l : list A) (body : A → Plt unit) : Plt unit :=
  match l with
  | [] => mret tt
  | x :: l' => body x;; for_each l' body
  end.

(** ** The court renderer and the shot plotter *)

(** Lines 50-51 and 80-81: [if ax is None: ax = plt.gca()]. *)
Definition ax_or_gca (ax : option nat) : Plt nat :=
  match ax with
  | None => gca
  | Some h => mret h
  end.

(** Lines 55-66: the twelve constructor calls of the list display, each
    written as the patch it builds. *)
Definition court_calls (color : string) (lw : Q) : list Patch := [
  Circle (0, 0) 7.5 lw color false;
  Rectangle (-30, -12.5) 60 0 lw color true;
  Rectangle (-80, -47.5) 160 190 lw color false;
  Rectangle (-60, -47.5) 120 190 lw color false;
  Arc (0, 142.5) 120 120 0 180 lw color;
  Arc (0, 142.5) 120 120 180 0 lw color;
  Arc (0, 0) 80 80 0 180 lw color;
  Rectangle (-220, -47.5) 0 140 lw color true;
  Rectangle (220, -47.5) 0 140 lw color true;
  Arc (0, 0) 475 475 22 158 lw color;
  Arc (0, 422.5) 120 120 180 0 lw color;
  Arc (0, 422.5) 40 40 180 0 lw color
].

Section plotter.

Variable lib : Library.

(** Lines 54-67: evaluating the list display. *)
Definition court_elements (color : string) (lw : Q) : PyExn + list Patch :=
  new_patches lib (court_calls color lw).

(** Lines 46-73.  [ax=None] is [None]; the other defaults are supplied by
    the caller. *)
Definition draw_court (ax : option nat) (color : string) (lw : Q)
    (outer_lines : bool) : Plt unit :=
  ax ← ax_or_gca ax;
  court_elements ← raising (court_elements color lw);
  court_elements ←
    (if outer_lines
     then
       boundary ← raising
         (new_patch lib (Rectangle (-250, -47.5) 500 470 lw color false));
       mret (court_elements ++ [boundary])
     else mret court_elements);
  for_each court_elements (λ element, call ax (add_patch element)).

(** Lines 76-99. *)
Definition plot_shot_chart (data : nat) (title : string) (ax : option nat)
    (court_color : string) (court_lw : Q) (line_color : string)
    : Plt unit :=
  ax ← ax_or_gca ax;
  call ax (set_xlim (-250) 250);;
  call ax (set_ylim 422.5 (-47.5));;
  call ax (set_title title 18);;
  call ax (tick_params false false);;
  draw_court (Some ax) line_color court_lw false;;
  df ← deref data;
  call_exn ax
    (scatter lib
       (pd.loc df (pd.eq_mask EVENT_TYPE df "Missed Shot") LOC_X)
       (pd.loc df (pd.eq_mask EVENT_TYPE df "Missed Shot") LOC_Y)
       (MkStyle (Some "r") None None "x" 100 1 "Missed"));;
  df ← deref data;
  call_exn ax
    (scatter lib
       (pd.loc df (pd.eq_mask EVENT_TYPE df "Made Shot") LOC_X)
       (pd.loc df (pd.eq_mask EVENT_TYPE df "Made Shot") LOC_Y)
       (MkStyle None (Some "g") (Some "none") "o" 100 1 "Made"));;
  call ax legend.

End plotter.

(** ** Vocabulary of the specification *)

(** The specification calls the exception of line 27 [PlayerNotFound]. *)
Definition PlayerNotFound (player_name : string) : PyExn :=
  ValueError ("Player '" +:+ player_name +:+ "' not found.").

(** The specification calls the failure of line 32, [.iloc[0]] on an empty
    selection, [SeasonNotFound]. *)
Definition SeasonNotFound : PyExn :=
  IndexError "single positional indexer is out-of-bounds".

(** [player] is the directory entry the name resolves to: the first one whose
    full name is exactly [player_name]. *)
Definition resolves_to (directory : list Player) (player_name : string)
    (player : Player) : Prop :=
  ∃ before after,
    directory = before ++ player :: after
    ∧ Forall (λ q, full_name q ≠ player_name) before
    ∧ full_name player = player_name.

(** The point a shot record is plotted at. *)
Definition coordinates (r : ShotRow) : Q * Q := (LOC_X r, LOC_Y r).

(** The axes behind [h] once a call has returned. *)
Definition axes_after {A : Type} (h : nat) (o : Outcome A) : option Axes :=
  match o with
  | Returns _ w => axes w !! h
  | _ => None
  end.

(** The axes once the patches [ps] have been added to it, in order. *)
Definition add_patches (ps : list Patch) (ax : Axes) : Axes :=
  MkAxes (xlim ax) (ylim ax) (autoscalex_on ax) (autoscaley_on ax)
    (title ax) (title_fontsize ax) (labelbottom ax) (labelleft ax)
    (children ax ++ ((λ p, PatchArtist p "") <$> ps)) (containers ax)
    (legend_ ax).

(** The two series of the overlay, as collections. *)
Definition missed_series (df : list ShotRow) : PathCollection :=
  MkCollection
    (coordinates <$> filter (λ r, EVENT_TYPE r = "Missed Shot") df)
    (MkStyle (Some "r") None None "x" 100 1 "Missed").

Definition made_series (df : list ShotRow) : PathCollection :=
  MkCollection
    (coordinates <$> filter (λ r, EVENT_TYPE r = "Made Shot") df)
    (MkStyle None (Some "g") (Some "none") "o" 100 1 "Made").

(** The axes [ax] once lines 84-87 have configured it. *)
Definition configured (title : string) (ax : Axes) : Axes :=
  MkAxes (-250, 250) (422.5, -47.5) false false title (Some 18) false false
    (children ax) (containers ax) (legend_ ax).

(** The axes [ax] once a shot chart of the frame [df] has been drawn on
    it. *)
Definition shot_chart_on (df : list ShotRow) (title : string) (court_lw : Q)
    (line_color : string) (ax : Axes) : Axes :=
  let artists :=
    children ax
    ++ ((λ p, PatchArtist p "") <$> court_calls line_color court_lw)
    ++ [CollectionArtist (missed_series df);
        CollectionArtist (made_series df)] in
  MkAxes (-250, 250) (422.5, -47.5) false false title (Some 18) false false
    artists (containers ax)
    (Some (omap legend_entry artists
           ++ List.filter legend_shows (containers ax))).

(** The primitive catalogue of the specification (section 4.2), written from
    its table, and what it means for a patch to have the geometry of a
    catalogue entry. *)
Module catalogue.

Inductive Shape : Type :=
| circle (center : Q * Q) (radius : Q)
| horizontal_segment (center : Q * Q) (width : Q)
| vertical_segment (x y_from y_to : Q)
| rectangle (corner : Q * Q) (width height : Q)
| arc (center : Q * Q) (radius theta_from theta_to : Q).

Definition hoop := circle (0, 0) 7.5.
Definition backboard := horizontal_segment (0, -12.5) 60.
Definition outer_paint := rectangle (-80, -47.5) 160 190.
Definition inner_paint := rectangle (-60, -47.5) 120 190.
Definition free_throw_top := arc (0, 142.5) 60 0 180.
Definition free_throw_bottom := arc (0, 142.5) 60 180 0.
Definition restricted_area := arc (0, 0) 40 0 180.
Definition left_corner_three := vertical_segment (-220) (-47.5) 92.5.
Definition right_corner_three := vertical_segment 220 (-47.5) 92.5.
Definition three_point_arc := arc (0, 0) 237.5 22 158.
Definition center_circle_outer := arc (0, 422.5) 60 180 0.
Definition center_circle_inner := arc (0, 422.5) 20 180 0.
Definition outer_boundary := rectangle (-250, -47.5) 500 470.

Definition court_spec (include_outer_boundary : bool) : list Shape :=
  [hoop; backboard; outer_paint; inner_paint; free_throw_top;
   free_throw_bottom; restricted_area; left_corner_three;
   right_corner_three; three_point_arc; center_circle_outer;
   center_circle_inner]
  ++ (if include_outer_boundary then [outer_boundary] else []).

Definition same_point (p q : Q * Q) : bool :=
  Qeq_bool p.1 q.1 && Qeq_bool p.2 q.2.

(** A circle or rectangle of the catalogue is an unfilled outline; a
    segment is a rectangle of no height or no width; an arc of radius [r]
    is an [Arc] whose two diameters are [2 r]. *)
Definition has_geometry (p : Patch) (s : Shape) : bool :=
  match p, s with
  | Circle xy r _ _ fill, circle center radius =>
      same_point xy center && Qeq_bool r radius && negb fill
  | Rectangle xy w h _ _ _, horizontal_segment center width =>
      Qeq_bool h 0 && Qeq_bool w width
      && same_point (xy.1 + w / 2, xy.2) center
  | Rectangle xy w h _ _ _, vertical_segment x y_from y_to =>
      Qeq_bool w 0 && same_point xy (x, y_from) && Qeq_bool (xy.2 + h) y_to
  | Rectangle xy w h _ _ fill, rectangle corner width height =>
      same_point xy corner && Qeq_bool w width && Qeq_bool h height
      && negb fill
  | Arc xy w h theta1 theta2 _ _, arc center radius theta_from theta_to =>
      same_point xy center && Qeq_bool w (2 * radius)
      && Qeq_bool h (2 * radius)
      && Qeq_bool theta1 theta_from && Qeq_bool theta2 theta_to
  | _, _ => false
  end.

End catalogue.

(** ** Concrete inputs used by the examples *)

Module example.

Definition directory : list Player :=
  [MkPlayer 1630163 "LaMelo Ball"; MkPlayer 1641744 "Zach Edey"].

(** A player traded in mid-season: two rows for 2024-25. *)
Definition career : list CareerRow :=
  [MkCareerRow "2023-24" 1610612766; MkCareerRow "2024-25" 1610612763;
   MkCareerRow "2024-25" 1610612737].

Definition shots : list ShotRow :=
  [MkShotRow 0 100 "Made Shot"; MkShotRow (-50) 50 "Missed Shot";
   MkShotRow 10 10 "Unknown"; MkShotRow 900 (-300) "Made Shot"].

Definition provider : Provider (list ShotRow) :=
  MkProvider (list ShotRow) directory
    (λ _, inr [career])
    (λ _, inr [shots; []]).

(** View limits that follow the data: the bounding box of all scatter
    points. *)
Definition bounding_box (artists : list Artist) : (Q * Q) * (Q * Q) :=
  let pts := concat (offsets <$> omap as_collection artists) in
  match pts with
  | [] => ((0, 1), (0, 1))
  | p :: _ =>
      ((foldr Qmin p.1 (map fst pts), foldr Qmax p.1 (map fst pts)),
       (foldr Qmin p.2 (map snd pts), foldr Qmax p.2 (map snd pts)))
  end.

(** A library that accepts the named colours only. *)
Definition library : Library :=
  MkLibrary bounding_box (λ _, false)
    (λ c, "Invalid RGBA argument: '" +:+ c +:+ "'").

(** One frame behind reference 0, one untouched axes behind reference 0 of
    the axes store, which is also the current axes. *)
Definition world : World :=
  MkWorld {[ 0%nat := shots ]} {[ 0%nat := new_axes ]} (Some 0%nat).

(** A process that has not opened a figure yet. *)
Definition blank : World := MkWorld {[ 0%nat := shots ]} ∅ None.

(** An axes on which a labelled line, an unlabelled line and a bar plot
    have been drawn. *)
Definition busy_axes : Axes :=
  MkAxes (0, 1) (0, 1) true true "" None true true
    [OtherArtist (Some "Line"); OtherArtist None] ["Bars"] None.

End example.

(** ** The script (lines 102-111)

    The script fetches, opens a figure, plots on it and shows it.  Its state
    is the request trace, the object store, the sizes of the figures opened
    so far and whether [plt.show()] has been reached. *)

Record Process : Type := MkProcess {
  requests : list Request;
  objects : World;
  figures : list (Q * Q);
  shown : bool
}.

(** The interpreter before the script has done anything. *)
Definition initial_process : Process :=
  MkProcess [] (MkWorld ∅ ∅ None) [] false.

(** A step of the script returns or raises; [None] is the model-only case of
    a reference that names no object. *)
Definition Script (A : Type) : Type :=
  Process → option ((PyExn + A) * Process).

Definition script_ret {A : Type} (a : A) : Script A :=
  λ p, Some (inr a, p).

Definition script_bind {A B : Type} (m : Script A) (k : A → Script B)
    : Script B :=
  λ p, match m p with
       | Some (inr a, p') => k a p'
       | Some (inl e, p') => Some (inl e, p')
       | None => None
       end.

#[global] Instance script_mret : MRet Script := @script_ret.
#[global] Instance script_mbind : MBind Script := λ A B k m, script_bind m k.

(** A local operation that may raise. *)
Definition evaluating {A : Type} (x : PyExn + A) : Script A :=
  λ p, Some (x, p).

(** A computation that talks to the provider, run on the trace of the
    process. *)
Definition fetching {A : Type} (m : Fetch A) : Script A :=
  λ p, match m (requests p) with
       | (x, tr) => Some (x, MkProcess tr (objects p) (figures p) (shown p))
       end.

(** A computation on the object store. *)
Definition plotting {A : Type} (m : Plt A) : Script A :=
  λ p, match m (objects p) with
       | Returns a w => Some (inr a, MkProcess (requests p) w (figures p) (shown p))
       | Raises e w => Some (inl e, MkProcess (requests p) w (figures p) (shown p))
       | NoSuchObject => None
       end.

(** The frame a call has returned is a new object of the store. *)
Definition new_frame (df : list ShotRow) : Plt nat :=
  λ w, let d := fresh (dom (frames w)) in
       Returns d (MkWorld (<[d := df]> (frames w)) (axes w) (current_axes w)).

(** [plt.figure(figsize=...)]: the new figure becomes the current one, and
    it has no axes yet. *)
Definition figure (figsize : Q * Q) : Script unit :=
  λ p, Some (inr tt,
             MkProcess (requests p)
               (MkWorld (frames (objects p)) (axes (objects p)) None)
               (figures p ++ [figsize]) (shown p)).

(** [plt.show()]. *)
Definition show : Script unit :=
  λ p, Some (inr tt, MkProcess (requests p) (objects p) (figures p) true).

(** [sys.argv[i] if len(sys.argv) > i else default]. *)
Definition argv_or (argv : list string) (i : nat) (default : string)
    : PyExn + string :=
  if bool_decide (i < length argv)%nat then getitem argv i else inr default.

Section script.

Variable lib : Library.
Variable provider : Provider (list ShotRow).

(** Lines 102-111.  [plot_shot_chart] is called with its defaults: no axes,
    [court_color] "white", [court_lw] 2, [line_color] "blue". *)
Definition main (argv : list string) : Script unit :=
  player_name ← evaluating (argv_or argv 1 "Zach Edey");
  season_id ← evaluating (argv_or argv 2 "2024-25");
  '(shot_data, _) ← fetching
    (get_player_shotchartdetail provider player_name season_id);
  shot_data ← plotting (new_frame shot_data);
  figure (12, 11);;
  plotting
    (plot_shot_chart lib shot_data
       (player_name +:+ " Shot Chart " +:+ season_id) None "white" 2 "blue");;
  show.

End script.

(** ** Providers that fail or answer short, used by the examples *)

Module faulty.

Definition read_timeout : PyExn := MkExn "ReadTimeout" "Read timed out.".

(** The career endpoint is unreachable. *)
Definition career_down : Provider (list ShotRow) :=
  MkProvider (list ShotRow) example.directory
    (λ _, inl read_timeout) (λ _, inr [example.shots; []]).

(** The career endpoint answers without a frame. *)
Definition career_empty : Provider (list ShotRow) :=
  MkProvider (list ShotRow) example.directory
    (λ _, inr []) (λ _, inr [example.shots; []]).

(** The shot-chart endpoint answers with one frame only. *)
Definition shots_only : Provider (list ShotRow) :=
  MkProvider (list ShotRow) example.directory
    (λ _, inr [example.career]) (λ _, inr [example.shots]).

(** Two directory entries of the same name. *)
Definition namesakes : Provider (list ShotRow) :=
  MkProvider (list ShotRow)
    [MkPlayer 7 "Zach Edey"; MkPlayer 1641744 "Zach Edey"]
    (λ _, inr [example.career]) (λ _, inr [example.shots; []; []]).

End faulty.

(** * Properties *)

(** Membership of an element that is written out in a list literal. *)
Ltac listed :=
  unfold court_calls;
  repeat first [apply list_elem_of_here | apply list_elem_of_further].

(** ** pandas selections *)

(** Selecting with the mask of a comparison keeps exactly the rows that
    satisfy it, in order and with their multiplicity. *)
Lemma select_eq_mask {R : Type} (col : R → string) (frame : list R)
    (v : string) :
  pd.select (pd.eq_mask col frame v) frame = filter (λ r, col r = v) frame.
Proof.
  unfold pd.eq_mask.
  induction frame as [|r frame IH]; simpl; [done|].
  rewrite filter_cons, IH.
  case_bool_decide; by case_decide.
Qed.

Lemma loc_eq_mask {R A : Type} (col : R → string) (frame : list R)
    (v : string) (f : R → A) :
  pd.loc frame (pd.eq_mask col frame v) f
  = f <$> filter (λ r, col r = v) frame.
Proof. unfold pd.loc. by rewrite select_eq_mask. Qed.

Lemma filter_no_match {R : Type} (col : R → string) (frame : list R)
    (v : string) :
  Forall (λ r, col r ≠ v) frame → filter (λ r, col r = v) frame = [].
Proof.
  induction 1 as [|r frame Hr _ IH]; [done|].
  by rewrite filter_cons_False.
Qed.

Lemma iloc0_empty_selection (career_df : list CareerRow) (season_id : string) :
  (∀ r, r ∈ career_df → SEASON_ID r ≠ season_id) →
  pd.iloc0 (pd.loc career_df (pd.eq_mask SEASON_ID career_df season_id) TEAM_ID)
  = inl SeasonNotFound.
Proof.
  intros Hnone. rewrite loc_eq_mask, filter_no_match; [done|].
  by apply Forall_forall.
Qed.

Lemma iloc0_first_match (pre post : list CareerRow) (row : CareerRow)
    (season_id : string) :
  Forall (λ r, SEASON_ID r ≠ season_id) pre →
  SEASON_ID row = season_id →
  pd.iloc0 (pd.loc (pre ++ row :: post)
              (pd.eq_mask SEASON_ID (pre ++ row :: post) season_id) TEAM_ID)
  = inr (TEAM_ID row).
Proof.
  intros Hpre Hrow.
  rewrite loc_eq_mask, filter_app, filter_no_match, filter_cons_True by done.
  done.
Qed.

(** ** The directory lookup *)

Lemma find_no_match (directory : list Player) (player_name : string) :
  (∀ p, p ∈ directory → full_name p ≠ player_name) →
  find (λ p, bool_decide (full_name p = player_name)) directory = None.
Proof.
  induction directory as [|q directory IH]; intros Hno; simpl; [done|].
  rewrite bool_decide_eq_false_2 by (apply Hno; left).
  apply IH. intros p Hp. apply Hno. by right.
Qed.

Lemma find_resolves (directory : list Player) (player_name : string)
    (player : Player) :
  resolves_to directory player_name player →
  find (λ p, bool_decide (full_name p = player_name)) directory = Some player.
Proof.
  intros (before & after & -> & Hbefore & Hname).
  induction Hbefore as [|q before Hq _ IH]; simpl.
  - by rewrite bool_decide_eq_true_2.
  - by rewrite bool_decide_eq_false_2.
Qed.

(** The retriever up to the shot-chart query, for a player and a season the
    provider knows. *)
Lemma retriever_reaches_query {frame : Type} (provider : Provider frame)
    (player_name season_id : string) (player : Player)
    (pre post : list CareerRow) (row : CareerRow)
    (others : list (list CareerRow)) (tr : list Request) :
  resolves_to (get_players provider) player_name player →
  PlayerCareerStats provider (id player) = inr ((pre ++ row :: post) :: others) →
  Forall (λ r, SEASON_ID r ≠ season_id) pre →
  SEASON_ID row = season_id →
  get_player_shotchartdetail provider player_name season_id tr
  = fetch_shotchart provider (TEAM_ID row) (id player) season_id
      (tr ++ [ReqPlayers; ReqCareer (id player)]).
Proof.
  intros Hplayer Hcareer Hpre Hrow.
  unfold get_player_shotchartdetail, mbind, fetch_mbind, fetch_bind, request.
  rewrite (find_resolves _ _ _ Hplayer), Hcareer. simpl.
  rewrite (iloc0_first_match _ _ _ _ Hpre Hrow).
  by rewrite <- app_assoc.
Qed.

(** ** The stats retriever *)

(** C6.  When no entry of the player directory has exactly the requested
    full name (string equality, so case matters), the retriever raises the
    player-not-found error, and the directory lookup is the only request it
    has made: neither the career history nor the shot data is asked for. *)
Theorem unknown_player_raises_before_any_query {frame : Type}
    (provider : Provider frame) (player_name season_id : string)
    (tr : list Request) :
  (∀ p, p ∈ get_players provider → full_name p ≠ player_name) →
  get_player_shotchartdetail provider player_name season_id tr
  = (inl (PlayerNotFound player_name), tr ++ [ReqPlayers]).
Proof.
  intros Hno.
  unfold get_player_shotchartdetail, mbind, fetch_mbind, fetch_bind, request.
  by rewrite (find_no_match _ _ Hno).
Qed.

Lemma unknown_player_example :
  (∀ p, p ∈ get_players example.provider → full_name p ≠ "zach edey")
  ∧ get_player_shotchartdetail example.provider "zach edey" "2024-25" []
    = (inl (PlayerNotFound "zach edey"), [ReqPlayers]).
Proof.
  assert (∀ p, p ∈ get_players example.provider → full_name p ≠ "zach edey")
    as Hno.
  { intros p Hp. simpl in Hp. unfold example.directory in Hp.
    repeat (apply elem_of_cons in Hp as [->|Hp]; [discriminate|]).
    by apply elem_of_nil in Hp. }
  split; [exact Hno|].
  exact (unknown_player_raises_before_any_query
           example.provider "zach edey" "2024-25" [] Hno).
Defined.

(** C7.  When the name resolves to a player whose career frame has no row
    for the requested season, the retriever fails with the season-not-found
    error: it does not return, it raises nothing else, and it stops after
    the career lookup. *)
Theorem missing_season_raises {frame : Type} (provider : Provider frame)
    (player_name season_id : string) (player : Player)
    (career_df : list CareerRow) (others : list (list CareerRow))
    (tr : list Request) :
  resolves_to (get_players provider) player_name player →
  PlayerCareerStats provider (id player) = inr (career_df :: others) →
  (∀ r, r ∈ career_df → SEASON_ID r ≠ season_id) →
  get_player_shotchartdetail provider player_name season_id tr
  = (inl SeasonNotFound, tr ++ [ReqPlayers; ReqCareer (id player)]).
Proof.
  intros Hplayer Hcareer Hnone.
  unfold get_player_shotchartdetail, mbind, fetch_mbind, fetch_bind, request.
  rewrite (find_resolves _ _ _ Hplayer), Hcareer. simpl.
  rewrite (iloc0_empty_selection _ _ Hnone).
  by rewrite <- app_assoc.
Qed.

Lemma edey_resolves :
  resolves_to (get_players example.provider) "Zach Edey"
    (MkPlayer 1641744 "Zach Edey").
Proof.
  exists [MkPlayer 1630163 "LaMelo Ball"], [].
  split; [reflexivity|]. split; [|reflexivity].
  constructor; [discriminate|constructor].
Defined.

Lemma missing_season_example :
  get_player_shotchartdetail example.provider "Zach Edey" "2019-20" []
  = (inl SeasonNotFound, [ReqPlayers; ReqCareer 1641744]).
Proof.
  apply (missing_season_raises example.provider "Zach Edey" "2019-20"
           (MkPlayer 1641744 "Zach Edey") example.career [] []).
  - exact edey_resolves.
  - reflexivity.
  - intros r Hr. unfold example.career in Hr.
    repeat (apply elem_of_cons in Hr as [->|Hr]; [discriminate|]).
    by apply elem_of_nil in Hr.
Defined.

(** C10.  When the career frame has several rows for the requested season,
    the team of the first one is the team of the shot-chart query; the run
    continues exactly as the query for that team does, whatever rows follow
    the first match. *)
Theorem first_matching_row_decides_team {frame : Type}
    (provider : Provider frame) (player_name season_id : string)
    (player : Player) (pre post : list CareerRow) (row : CareerRow)
    (others : list (list CareerRow)) (tr : list Request) :
  resolves_to (get_players provider) player_name player →
  PlayerCareerStats provider (id player) = inr ((pre ++ row :: post) :: others) →
  Forall (λ r, SEASON_ID r ≠ season_id) pre →
  SEASON_ID row = season_id →
  let q := MkShotQuery (TEAM_ID row) (id player) "Regular Season" season_id "FGA" in
  let trace := tr ++ [ReqPlayers; ReqCareer (id player); ReqShotChart q] in
  get_player_shotchartdetail provider player_name season_id tr
  = match ShotChartDetail provider q with
    | inl e => (inl e, trace)
    | inr shotchart =>
        match getitem shotchart 0, getitem shotchart 1 with
        | inr shots, inr league => (inr (shots, league), trace)
        | inl e, _ | _, inl e => (inl e, trace)
        end
    end.
Proof.
  intros Hplayer Hcareer Hpre Hrow q trace.
  rewrite (retriever_reaches_query _ _ _ _ _ _ _ _ _ Hplayer Hcareer Hpre Hrow).
  unfold fetch_shotchart, mbind, fetch_mbind, fetch_bind, request, lift.
  fold q. subst trace. rewrite <- app_assoc. simpl.
  destruct (ShotChartDetail provider q) as [e|shotchart]; [done|].
  destruct (getitem shotchart 0) as [e|shots]; [done|].
  by destruct (getitem shotchart 1) as [e|league].
Qed.

Lemma traded_player_example :
  get_player_shotchartdetail example.provider "Zach Edey" "2024-25" []
  = (inr (example.shots, []),
     [ReqPlayers; ReqCareer 1641744;
      ReqShotChart
        (MkShotQuery 1610612763 1641744 "Regular Season" "2024-25" "FGA")]).
Proof.
  apply (first_matching_row_decides_team example.provider "Zach Edey" "2024-25"
           (MkPlayer 1641744 "Zach Edey")
           [MkCareerRow "2023-24" 1610612766]
           [MkCareerRow "2024-25" 1610612737]
           (MkCareerRow "2024-25" 1610612763) [] []).
  - exact edey_resolves.
  - reflexivity.
  - constructor; [discriminate|constructor].
  - reflexivity.
Defined.

(** ** Method calls on a stored axes *)

Lemma bind_returns {A B : Type} (m : Plt A) (k : A → Plt B) (w w' : World)
    (a : A) :
  m w = Returns a w' → (m ≫= k) w = k a w'.
Proof. intros H. unfold mbind, plt_mbind, plt_bind. by rewrite H. Qed.

Lemma bind_raises {A B : Type} (m : Plt A) (k : A → Plt B) (w w' : World)
    (e : PyExn) :
  m w = Raises e w' → (m ≫= k) w = Raises e w'.
Proof. intros H. unfold mbind, plt_mbind, plt_bind. by rewrite H. Qed.

Lemma store_axes_id (h : nat) (a : Axes) (w : World) :
  axes w !! h = Some a → store_axes h a w = w.
Proof.
  intros H. destruct w as [fs axs cur]; unfold store_axes; simpl in *.
  by rewrite insert_id.
Qed.

Lemma store_axes_twice (h : nat) (a b : Axes) (w : World) :
  store_axes h b (store_axes h a w) = store_axes h b w.
Proof. unfold store_axes; simpl. by rewrite insert_insert_eq. Qed.

Lemma call_store (h : nat) (method : Axes → Axes) (a : Axes) (w : World) :
  call h method (store_axes h a w) = Returns tt (store_axes h (method a) w).
Proof.
  unfold call. simpl. rewrite lookup_insert_eq. by rewrite store_axes_twice.
Qed.

Lemma call_exn_store (h : nat) (method : Axes → PyExn + Axes) (a a' : Axes)
    (w : World) :
  method a = inr a' →
  call_exn h method (store_axes h a w) = Returns tt (store_axes h a' w).
Proof.
  intros H. unfold call_exn. simpl. rewrite lookup_insert_eq, H.
  by rewrite store_axes_twice.
Qed.

Lemma deref_store (d h : nat) (a : Axes) (df : list ShotRow) (w : World) :
  frames w !! d = Some df →
  deref d (store_axes h a w) = Returns df (store_axes h a w).
Proof. intros H. unfold deref. simpl. by rewrite H. Qed.

(** ** Patches and collections among the artists *)

Lemma patches_of_patch_artists (ps : list Patch) :
  omap as_patch ((λ p, PatchArtist p "") <$> ps) = ps.
Proof. induction ps as [|p ps IH]; [done|]. simpl. by f_equal. Qed.

Lemma collections_of_patch_artists (ps : list Patch) :
  omap as_collection ((λ p, PatchArtist p "") <$> ps) = [].
Proof. by induction ps. Qed.

Lemma entries_of_patch_artists (ps : list Patch) :
  omap legend_entry ((λ p, PatchArtist p "") <$> ps) = [].
Proof. by induction ps. Qed.

Lemma patches_add_patches (ps : list Patch) (a : Axes) :
  patches (add_patches ps a) = patches a ++ ps.
Proof.
  unfold patches, add_patches. cbn [children].
  by rewrite omap_app, patches_of_patch_artists.
Qed.

Lemma collections_add_patches (ps : list Patch) (a : Axes) :
  collections (add_patches ps a) = collections a.
Proof.
  unfold collections, add_patches. cbn [children].
  by rewrite omap_app, collections_of_patch_artists, app_nil_r.
Qed.

Lemma patches_shot_chart_on (df : list ShotRow) (title : string) (lw : Q)
    (color : string) (a : Axes) :
  patches (shot_chart_on df title lw color a)
  = patches a ++ court_calls color lw.
Proof.
  unfold patches, shot_chart_on. cbn [children].
  rewrite !omap_app, patches_of_patch_artists.
  by rewrite app_nil_r.
Qed.

Lemma collections_shot_chart_on (df : list ShotRow) (title : string) (lw : Q)
    (color : string) (a : Axes) :
  collections (shot_chart_on df title lw color a)
  = collections a ++ [missed_series df; made_series df].
Proof.
  unfold collections, shot_chart_on. cbn [children].
  by rewrite !omap_app, collections_of_patch_artists.
Qed.

Lemma add_patches_cons (p : Patch) (ps : list Patch) (a : Axes) :
  add_patches ps (add_patch p a) = add_patches (p :: ps) a.
Proof. unfold add_patches, add_patch; simpl. by rewrite <- app_assoc. Qed.

Lemma add_patches_nil (a : Axes) : add_patches [] a = a.
Proof. destruct a. unfold add_patches; simpl. by rewrite app_nil_r. Qed.

(** The loop of lines 72-73 adds the patches one after the other. *)
Lemma for_each_add_patch (h : nat) (ps : list Patch) (a : Axes) (w : World) :
  for_each ps (λ element, call h (add_patch element)) (store_axes h a w)
  = Returns tt (store_axes h (add_patches ps a) w).
Proof.
  revert a. induction ps as [|p ps IH]; intros a; simpl.
  - by rewrite add_patches_nil.
  - erewrite bind_returns by apply call_store.
    by rewrite IH, add_patches_cons.
Qed.

(** ** Building the patches *)

Lemma new_patches_accepted (lib : Library) (calls : list Patch) :
  Forall (λ p, is_color_like lib (patch_color p) = true) calls →
  new_patches lib calls = inr calls.
Proof.
  induction 1 as [|p calls Hp _ IH]; simpl; [done|].
  unfold new_patch. by rewrite Hp, IH.
Qed.

Lemma court_calls_color (color : string) (lw : Q) :
  Forall (λ p, patch_color p = color ∧ patch_linewidth p = lw)
    (court_calls color lw).
Proof. by repeat constructor. Qed.

Lemma court_elements_accepted (lib : Library) (color : string) (lw : Q) :
  is_color_like lib color = true →
  court_elements lib color lw = inr (court_calls color lw).
Proof.
  intros Hcolor. apply new_patches_accepted.
  eapply Forall_impl; [apply court_calls_color|].
  intros p [-> _]. exact Hcolor.
Qed.

(** The first constructor call of the list display already raises. *)
Lemma court_elements_rejected (lib : Library) (color : string) (lw : Q) :
  is_color_like lib color = false →
  court_elements lib color lw = inl (ValueError (color_error lib color)).
Proof.
  intros Hcolor. unfold court_elements, court_calls. simpl.
  unfold new_patch. simpl. by rewrite Hcolor.
Qed.

(** ** The axes a call draws on *)

Lemma gca_spec (w : World) :
  ∃ h w0,
    gca w = Returns h w0
    ∧ frames w0 = frames w
    ∧ (∀ h', h' ≠ h → axes w0 !! h' = axes w !! h')
    ∧ (current_axes w = None → axes w0 !! h = Some new_axes).
Proof.
  unfold gca. destruct (current_axes w) as [h|] eqn:Hcur.
  - exists h, w. by repeat split.
  - eexists _, _. split; [done|]. simpl. repeat split.
    + intros h' Hne. by rewrite lookup_insert_ne.
    + intros _. by rewrite lookup_insert_eq.
Qed.

Lemma ax_or_gca_frame (ax : option nat) (w w0 : World) (h : nat) :
  ax_or_gca ax w = Returns h w0 →
  frames w0 = frames w ∧ (∀ h', h' ≠ h → axes w0 !! h' = axes w !! h').
Proof.
  destruct ax as [h1|]; simpl.
  - intros [= <- <-]. done.
  - destruct (gca_spec w) as (h2 & w2 & Hg & Hf & Ho & _).
    rewrite Hg. intros [= <- <-]. done.
Qed.

(** ** The court renderer *)

(** For a colour matplotlib accepts the renderer returns, having added the
    patches of the list display and, if asked, the outer boundary. *)
Lemma draw_court_returns (lib : Library) (ax : option nat) (color : string)
    (lw : Q) (outer_lines : bool) (w w0 : World) (h : nat) (a : Axes) :
  is_color_like lib color = true →
  ax_or_gca ax w = Returns h w0 →
  axes w0 !! h = Some a →
  draw_court lib ax color lw outer_lines w
  = Returns tt
      (store_axes h
         (add_patches
            (if outer_lines
             then court_calls color lw
                  ++ [Rectangle (-250, -47.5) 500 470 lw color false]
             else court_calls color lw) a) w0).
Proof.
  intros Hcolor Hax Ha. unfold draw_court.
  erewrite bind_returns by exact Hax.
  erewrite bind_returns
    by (by rewrite (court_elements_accepted _ _ _ Hcolor)).
  rewrite <- (store_axes_id h a w0 Ha) at 1.
  destruct outer_lines.
  - erewrite bind_returns.
    2:{ erewrite bind_returns; [reflexivity|].
        unfold new_patch. simpl. by rewrite Hcolor. }
    apply for_each_add_patch.
  - erewrite bind_returns by reflexivity.
    apply for_each_add_patch.
Qed.

(** For any other colour the renderer raises while it builds the list, after
    the axes has been resolved and before any patch is added. *)
Lemma draw_court_raises (lib : Library) (ax : option nat) (color : string)
    (lw : Q) (outer_lines : bool) (w w0 : World) (h : nat) :
  is_color_like lib color = false →
  ax_or_gca ax w = Returns h w0 →
  draw_court lib ax color lw outer_lines w
  = Raises (ValueError (color_error lib color)) w0.
Proof.
  intros Hcolor Hax. unfold draw_court.
  erewrite bind_returns by exact Hax.
  apply bind_raises.
  by rewrite (court_elements_rejected _ _ _ Hcolor).
Qed.

(** ** The shot plotter *)

Lemma zip_columns (rows : list ShotRow) :
  zip (LOC_X <$> rows) (LOC_Y <$> rows) = coordinates <$> rows.
Proof. induction rows as [|r rows IH]; [done|]. simpl. by f_equal. Qed.

(** With both autoscale switches off, [scatter] adds its collection and
    leaves the view alone, whatever limits the data would suggest. *)
Lemma scatter_fixed_view (lib : Library) (x y : list Q) (st : ScatterStyle)
    (a : Axes) :
  autoscalex_on a = false →
  autoscaley_on a = false →
  length x = length y →
  scatter lib x y st a
  = inr (MkAxes (xlim a) (ylim a) false false
           (title a) (title_fontsize a) (labelbottom a) (labelleft a)
           (children a ++ [CollectionArtist (MkCollection (zip x y) st)])
           (containers a) (legend_ a)).
Proof.
  intros Hx Hy Hlen. unfold scatter, autoscale_view.
  rewrite bool_decide_eq_true_2 by done. simpl. by rewrite Hx, Hy.
Qed.

Lemma scatter_series (lib : Library) (df : list ShotRow) (event : string)
    (st : ScatterStyle) (a : Axes) :
  autoscalex_on a = false →
  autoscaley_on a = false →
  scatter lib
    (pd.loc df (pd.eq_mask EVENT_TYPE df event) LOC_X)
    (pd.loc df (pd.eq_mask EVENT_TYPE df event) LOC_Y) st a
  = inr (MkAxes (xlim a) (ylim a) false false
           (title a) (title_fontsize a) (labelbottom a) (labelleft a)
           (children a
            ++ [CollectionArtist
                  (MkCollection
                     (coordinates <$> filter (λ r, EVENT_TYPE r = event) df)
                     st)])
           (containers a) (legend_ a)).
Proof.
  intros Hx Hy. rewrite !loc_eq_mask.
  rewrite scatter_fixed_view by (by rewrite ?length_fmap).
  by rewrite zip_columns.
Qed.

(** The whole plotter in closed form, for a line colour matplotlib accepts:
    it returns, and the axes it drew on has become [shot_chart_on]. *)
Lemma plot_shot_chart_returns (lib : Library) (data : nat) (title : string)
    (ax : option nat) (court_color : string) (court_lw : Q)
    (line_color : string) (w w0 : World) (h : nat) (a : Axes)
    (df : list ShotRow) :
  is_color_like lib line_color = true →
  ax_or_gca ax w = Returns h w0 →
  axes w0 !! h = Some a →
  frames w !! data = Some df →
  plot_shot_chart lib data title ax court_color court_lw line_color w
  = Returns tt (store_axes h (shot_chart_on df title court_lw line_color a) w0).
Proof.
  intros Hcolor Hax Ha Hdf.
  assert (frames w0 !! data = Some df) as Hdf0.
  { destruct (ax_or_gca_frame _ _ _ _ Hax) as [-> _]. exact Hdf. }
  unfold plot_shot_chart.
  erewrite bind_returns by exact Hax.
  rewrite <- (store_axes_id h a w0 Ha) at 1.
  do 4 (erewrite bind_returns by apply call_store).
  erewrite bind_returns.
  2:{ apply draw_court_returns with (h := h); [done|done|].
      simpl. apply lookup_insert_eq. }
  rewrite store_axes_twice.
  erewrite bind_returns by (by apply deref_store).
  erewrite bind_returns by (by apply call_exn_store, scatter_series).
  erewrite bind_returns by (by apply deref_store).
  erewrite bind_returns by (by apply call_exn_store, scatter_series).
  rewrite call_store.
  unfold shot_chart_on, missed_series, made_series, legend. simpl.
  by rewrite <- !app_assoc.
Qed.

(** For any other line colour the plotter raises at line 90: the axes has
    been configured, and nothing has been drawn on it. *)
Lemma plot_shot_chart_raises (lib : Library) (data : nat) (title : string)
    (ax : option nat) (court_color : string) (court_lw : Q)
    (line_color : string) (w w0 : World) (h : nat) (a : Axes) :
  is_color_like lib line_color = false →
  ax_or_gca ax w = Returns h w0 →
  axes w0 !! h = Some a →
  plot_shot_chart lib data title ax court_color court_lw line_color w
  = Raises (ValueError (color_error lib line_color))
      (store_axes h (configured title a) w0).
Proof.
  intros Hcolor Hax Ha.
  unfold plot_shot_chart.
  erewrite bind_returns by exact Hax.
  rewrite <- (store_axes_id h a w0 Ha) at 1.
  do 4 (erewrite bind_returns by apply call_store).
  apply bind_raises.
  by apply draw_court_raises with (h := h).
Qed.

(** C1.  For a line colour matplotlib accepts, the plotter adds two series
    to the axes, "Missed" and "Made".  The points of the first are the
    coordinates of exactly the records whose outcome is "Missed Shot", those
    of the second the coordinates of exactly the records whose outcome is
    "Made Shot", each in frame order; a record with any other outcome is in
    neither, and no record is in both. *)
Theorem shots_split_by_outcome (lib : Library) (data : nat) (title : string)
    (ax : option nat) (court_color : string) (court_lw : Q)
    (line_color : string) (w w0 : World) (h : nat) (a : Axes)
    (df : list ShotRow) :
  is_color_like lib line_color = true →
  ax_or_gca ax w = Returns h w0 →
  axes w0 !! h = Some a →
  frames w !! data = Some df →
  let in_missed := filter (λ r, EVENT_TYPE r = "Missed Shot") df in
  let in_made := filter (λ r, EVENT_TYPE r = "Made Shot") df in
  ∃ w' a' missed made,
    plot_shot_chart lib data title ax court_color court_lw line_color w
    = Returns tt w'
    ∧ axes w' !! h = Some a'
    ∧ collections a' = collections a ++ [missed; made]
    ∧ sc_label (style missed) = "Missed"
    ∧ sc_label (style made) = "Made"
    ∧ offsets missed = coordinates <$> in_missed
    ∧ offsets made = coordinates <$> in_made
    ∧ ∀ r, r ∈ df →
        (r ∈ in_missed ↔ EVENT_TYPE r = "Missed Shot")
        ∧ (r ∈ in_made ↔ EVENT_TYPE r = "Made Shot")
        ∧ (EVENT_TYPE r ≠ "Missed Shot" → EVENT_TYPE r ≠ "Made Shot" →
           (r ∉ in_missed) ∧ (r ∉ in_made))
        ∧ ¬ (r ∈ in_missed ∧ r ∈ in_made).
Proof.
  intros Hcolor Hax Ha Hdf in_missed in_made.
  exists (store_axes h (shot_chart_on df title court_lw line_color a) w0),
    (shot_chart_on df title court_lw line_color a),
    (missed_series df), (made_series df).
  split; [by apply plot_shot_chart_returns|].
  split; [apply lookup_insert_eq|].
  split; [apply collections_shot_chart_on|].
  do 4 (split; [done|]).
  intros r Hr. subst in_missed in_made.
  rewrite !list_elem_of_filter.
  repeat split; try tauto; try congruence.
  intros [[Hmissed _] [Hmade _]]. congruence.
Qed.

Lemma shots_split_example :
  ∃ w' a' missed made,
    plot_shot_chart example.library 0 "Zach Edey Shot Chart 2024-25" None
      "white" 2 "blue" example.world = Returns tt w'
    ∧ axes w' !! 0%nat = Some a'
    ∧ collections a' = [missed; made]
    ∧ offsets missed = [(-50, 50)]
    ∧ offsets made = [(0, 100); (900, -300)].
Proof.
  destruct (shots_split_by_outcome example.library 0
              "Zach Edey Shot Chart 2024-25" None "white" 2 "blue"
              example.world example.world 0 new_axes example.shots
              eq_refl eq_refl eq_refl eq_refl)
    as (w' & a' & missed & made & Hrun & Ha' & Hcs & _ & _ & Hmissed & Hmade & _).
  exists w', a', missed, made. repeat split; assumption.
Defined.

(** C5.  When the plotter returns, which it does for every line colour
    matplotlib accepts, the x-extent of the axes is (-250, 250) and its
    y-extent is (422.5, -47.5), upper bound first; this holds for every
    frame, whatever the coordinates of its records, and whatever limits
    autoscaling would derive from them. *)
Theorem view_limits_fixed (lib : Library) (data : nat) (title : string)
    (ax : option nat) (court_color : string) (court_lw : Q)
    (line_color : string) (w w0 : World) (h : nat) (a : Axes)
    (df : list ShotRow) :
  is_color_like lib line_color = true →
  ax_or_gca ax w = Returns h w0 →
  axes w0 !! h = Some a →
  frames w !! data = Some df →
  ∃ w' a',
    plot_shot_chart lib data title ax court_color court_lw line_color w
    = Returns tt w'
    ∧ axes w' !! h = Some a'
    ∧ xlim a' = (-250, 250)
    ∧ ylim a' = (422.5, -47.5).
Proof.
  intros Hcolor Hax Ha Hdf.
  exists (store_axes h (shot_chart_on df title court_lw line_color a) w0),
    (shot_chart_on df title court_lw line_color a).
  split; [by apply plot_shot_chart_returns|].
  split; [apply lookup_insert_eq|done].
Qed.

(** The example frame has a record at (900, -300), far outside the court,
    and the example limits follow the data. *)
Lemma view_limits_example :
  ∃ w' a',
    plot_shot_chart example.library 0 "" (Some 0%nat) "white" 2 "blue"
      example.world = Returns tt w'
    ∧ axes w' !! 0%nat = Some a'
    ∧ xlim a' = (-250, 250)
    ∧ ylim a' = (422.5, -47.5).
Proof.
  exact (view_limits_fixed example.library 0 "" (Some 0%nat) "white" 2
           "blue" example.world example.world 0 new_axes example.shots
           eq_refl eq_refl eq_refl eq_refl).
Defined.

(** C9.  The plotter does not write to the frame it is given: whether it
    returns (the line colour is one matplotlib accepts) or raises at line 90
    (it is not), every frame of the store, the one it is given included, is
    afterwards what it was before the call, and so is every axes other than
    the one it drew on. *)
Theorem frame_not_mutated (lib : Library) (data : nat) (title : string)
    (ax : option nat) (court_color : string) (court_lw : Q)
    (line_color : string) (w w0 : World) (h : nat) (a : Axes)
    (df : list ShotRow) :
  ax_or_gca ax w = Returns h w0 →
  axes w0 !! h = Some a →
  frames w !! data = Some df →
  ∃ w',
    (if is_color_like lib line_color
     then plot_shot_chart lib data title ax court_color court_lw line_color w
          = Returns tt w'
     else plot_shot_chart lib data title ax court_color court_lw line_color w
          = Raises (ValueError (color_error lib line_color)) w')
    ∧ frames w' = frames w
    ∧ frames w' !! data = Some df
    ∧ ∀ h', h' ≠ h → axes w' !! h' = axes w !! h'.
Proof.
  intros Hax Ha Hdf.
  destruct (ax_or_gca_frame _ _ _ _ Hax) as [Hframes Hothers].
  destruct (is_color_like lib line_color) eqn:Hcolor.
  - exists (store_axes h (shot_chart_on df title court_lw line_color a) w0).
    split; [by apply plot_shot_chart_returns|]. simpl.
    split; [done|]. split; [by rewrite Hframes|].
    intros h' Hne. rewrite lookup_insert_ne by done. by apply Hothers.
  - exists (store_axes h (configured title a) w0).
    split; [by apply plot_shot_chart_raises|]. simpl.
    split; [done|]. split; [by rewrite Hframes|].
    intros h' Hne. rewrite lookup_insert_ne by done. by apply Hothers.
Qed.

(** Here no figure is open: [plt.gca()] creates the axes the chart is drawn
    on. *)
Lemma frame_not_mutated_example :
  ∃ w',
    plot_shot_chart example.library 0 "" None "white" 2 "blue"
      example.blank = Returns tt w'
    ∧ frames w' = frames example.blank
    ∧ frames w' !! 0%nat = Some example.shots
    ∧ ∀ h', h' ≠ 0%nat → axes w' !! h' = axes example.blank !! h'.
Proof.
  exact (frame_not_mutated example.library 0 "" None "white" 2 "blue"
           example.blank
           (MkWorld {[ 0%nat := example.shots ]} {[ 0%nat := new_axes ]}
              (Some 0%nat))
           0 new_axes example.shots eq_refl eq_refl eq_refl).
Defined.

(** C4, as the code has it.  The plotter has the court drawn with
    [line_color] as the stroke colour, [court_lw] as the line width and no
    outer boundary: for a line colour matplotlib accepts, the patches it
    adds are those [draw_court] adds for these arguments, every one of them
    carries that colour and that width, and the [court_color] argument has
    no effect on the call. *)
Theorem court_drawn_in_line_color (lib : Library) (data : nat)
    (title : string) (ax : option nat) (court_color : string) (court_lw : Q)
    (line_color : string) (w w0 : World) (h : nat) (a : Axes)
    (df : list ShotRow) :
  is_color_like lib line_color = true →
  ax_or_gca ax w = Returns h w0 →
  axes w0 !! h = Some a →
  frames w !! data = Some df →
  ∃ w' a' wc ac added,
    plot_shot_chart lib data title ax court_color court_lw line_color w
    = Returns tt w'
    ∧ axes w' !! h = Some a'
    ∧ patches a' = patches a ++ added
    ∧ draw_court lib (Some h) line_color court_lw false w0 = Returns tt wc
    ∧ axes wc !! h = Some ac
    ∧ patches ac = patches a ++ added
    ∧ length added = 12%nat
    ∧ Forall (λ p, patch_color p = line_color ∧ patch_linewidth p = court_lw)
        added
    ∧ ∀ other_color,
        plot_shot_chart lib data title ax other_color court_lw line_color w
        = Returns tt w'.
Proof.
  intros Hcolor Hax Ha Hdf.
  exists (store_axes h (shot_chart_on df title court_lw line_color a) w0),
    (shot_chart_on df title court_lw line_color a),
    (store_axes h (add_patches (court_calls line_color court_lw) a) w0),
    (add_patches (court_calls line_color court_lw) a),
    (court_calls line_color court_lw).
  split; [by apply plot_shot_chart_returns|].
  split; [apply lookup_insert_eq|].
  split; [apply patches_shot_chart_on|].
  split;
    [by apply (draw_court_returns lib (Some h) line_color court_lw false w0)|].
  split; [apply lookup_insert_eq|].
  split; [apply patches_add_patches|].
  split; [done|].
  split; [apply court_calls_color|].
  intros other_color. by apply plot_shot_chart_returns.
Qed.

Lemma court_drawn_in_line_color_example :
  ∃ w' a',
    plot_shot_chart example.library 0 "" (Some 0%nat) "white" 2 "blue"
      example.world = Returns tt w'
    ∧ axes w' !! 0%nat = Some a'
    ∧ Forall (λ p, patch_color p = "blue" ∧ patch_linewidth p = 2)
        (patches a').
Proof.
  destruct (court_drawn_in_line_color example.library 0 ""
              (Some 0%nat) "white" 2 "blue" example.world example.world 0
              new_axes example.shots eq_refl eq_refl eq_refl eq_refl)
    as (w' & a' & wc & ac & added & Hrun & Ha' & Hps & _ & _ & _ & _
        & Hstyle & _).
  exists w', a'. rewrite Hps. repeat split; assumption.
Defined.

(** C4, with [court_color] read as the stroke colour, does not hold: for
    [court_color] "white" and [line_color] "blue" the court is stroked in
    blue, and no patch is white. *)
Lemma court_color_is_not_the_stroke_color :
  ∃ a',
    axes_after 0
      (plot_shot_chart example.library 0 "" (Some 0%nat) "white" 2 "blue"
         example.world) = Some a'
    ∧ patches a' = court_calls "blue" 2
    ∧ Forall (λ p, patch_color p ≠ "white") (patches a').
Proof.
  eexists. split; [vm_compute; reflexivity|].
  split; [reflexivity|]. repeat constructor; discriminate.
Qed.

(** ** The court renderer: what it adds *)

(** C2, as the code has it.  For a colour matplotlib accepts, [draw_court]
    adds exactly 12 patches when [outer_lines] is false and exactly 13 when
    it is true. *)
Theorem draw_court_adds_12_or_13 (lib : Library) (ax : option nat)
    (color : string) (lw : Q) (outer_lines : bool) (w w0 : World) (h : nat)
    (a : Axes) :
  is_color_like lib color = true →
  ax_or_gca ax w = Returns h w0 →
  axes w0 !! h = Some a →
  ∃ w' a' added,
    draw_court lib ax color lw outer_lines w = Returns tt w'
    ∧ axes w' !! h = Some a'
    ∧ patches a' = patches a ++ added
    ∧ length added = (if outer_lines then 13 else 12)%nat.
Proof.
  intros Hcolor Hax Ha.
  eexists _, _, _.
  split; [by apply draw_court_returns|].
  split; [apply lookup_insert_eq|].
  split; [apply patches_add_patches|].
  by destruct outer_lines.
Qed.

Lemma draw_court_adds_12_or_13_example :
  ∃ w' a' added,
    draw_court example.library None "blue" 1 true example.world
    = Returns tt w'
    ∧ axes w' !! 0%nat = Some a'
    ∧ patches a' = added
    ∧ length added = 13%nat.
Proof.
  exact (draw_court_adds_12_or_13 example.library None "blue" 1 true
           example.world example.world 0 new_axes eq_refl eq_refl eq_refl).
Defined.

(** C2, with the counts 11 and 12, does not hold: on an axes without
    patches the renderer leaves 12 patches, not 11, without the outer
    boundary, and 13, not 12, with it. *)
Lemma draw_court_does_not_add_11 :
  let count outer_lines :=
    (length ∘ patches) <$>
      axes_after 0
        (draw_court example.library (Some 0%nat) "blue" 1 outer_lines
           example.world)
  in
  count false = Some 12%nat ∧ count false ≠ Some 11%nat
  ∧ count true = Some 13%nat ∧ count true ≠ Some 12%nat.
Proof. vm_compute. repeat split; discriminate. Qed.

(** C3.  For a colour matplotlib accepts, the patches [draw_court] adds
    have, one by one and in order, the geometry of the catalogue of section
    4.2.  In particular there are among them: the hoop, a circle of radius
    7.5 around (0, 0); the three-point arc, of radius 237.5 around (0, 0)
    from 22 to 158 degrees; the two halves of the free-throw circle and the
    outer center-court circle, of radius 60; the restricted-area arc, of
    radius 40; and the two corner-three markers, vertical segments at
    x = -220 and x = 220 from y = -47.5 to y = 92.5. *)
Theorem court_matches_catalogue (lib : Library) (ax : option nat)
    (color : string) (lw : Q) (outer_lines : bool) (w w0 : World) (h : nat)
    (a : Axes) :
  is_color_like lib color = true →
  ax_or_gca ax w = Returns h w0 →
  axes w0 !! h = Some a →
  ∃ w' a' added,
    draw_court lib ax color lw outer_lines w = Returns tt w'
    ∧ axes w' !! h = Some a'
    ∧ patches a' = patches a ++ added
    ∧ Forall2 (λ p s, catalogue.has_geometry p s = true)
        added (catalogue.court_spec outer_lines)
    ∧ Forall (λ s, ∃ p, p ∈ added ∧ catalogue.has_geometry p s = true)
        [catalogue.circle (0, 0) 7.5;
         catalogue.arc (0, 0) 237.5 22 158;
         catalogue.arc (0, 142.5) 60 0 180;
         catalogue.arc (0, 142.5) 60 180 0;
         catalogue.arc (0, 422.5) 60 180 0;
         catalogue.arc (0, 0) 40 0 180;
         catalogue.vertical_segment (-220) (-47.5) 92.5;
         catalogue.vertical_segment 220 (-47.5) 92.5].
Proof.
  intros Hcolor Hax Ha.
  eexists _, _, _.
  split; [by apply draw_court_returns|].
  split; [apply lookup_insert_eq|].
  split; [apply patches_add_patches|].
  split.
  - destruct outer_lines; repeat constructor.
  - assert (∀ p s, p ∈ court_calls color lw →
              catalogue.has_geometry p s = true →
              ∃ p', p' ∈ (if outer_lines
                          then court_calls color lw
                               ++ [Rectangle (-250, -47.5) 500 470 lw color false]
                          else court_calls color lw)
                    ∧ catalogue.has_geometry p' s = true) as Hin.
    { intros p s Hp Hs. exists p. split; [|done].
      destruct outer_lines; [apply elem_of_app; by left|done]. }
    repeat apply Forall_cons_2; [..|apply Forall_nil_2].
    + apply (Hin (Circle (0, 0) 7.5 lw color false)); [listed|done].
    + apply (Hin (Arc (0, 0) 475 475 22 158 lw color)); [listed|done].
    + apply (Hin (Arc (0, 142.5) 120 120 0 180 lw color)); [listed|done].
    + apply (Hin (Arc (0, 142.5) 120 120 180 0 lw color)); [listed|done].
    + apply (Hin (Arc (0, 422.5) 120 120 180 0 lw color)); [listed|done].
    + apply (Hin (Arc (0, 0) 80 80 0 180 lw color)); [listed|done].
    + apply (Hin (Rectangle (-220, -47.5) 0 140 lw color true));
        [listed|done].
    + apply (Hin (Rectangle (220, -47.5) 0 140 lw color true));
        [listed|done].
Qed.

Lemma court_matches_catalogue_example :
  ∃ w' a' added,
    draw_court example.library (Some 0%nat) "blue" 1 true example.world
    = Returns tt w'
    ∧ axes w' !! 0%nat = Some a'
    ∧ patches a' = added
    ∧ Forall2 (λ p s, catalogue.has_geometry p s = true)
        added (catalogue.court_spec true).
Proof.
  destruct (court_matches_catalogue example.library (Some 0%nat) "blue" 1
              true example.world example.world 0 new_axes
              eq_refl eq_refl eq_refl)
    as (w' & a' & added & Hrun & Ha' & Hps & Hgeo & _).
  exists w', a', added. repeat split; assumption.
Defined.

(** C8.  Two calls of [draw_court] with the same colour, line width and
    boundary flag, the colour being one matplotlib accepts, add the same
    list of patches, on whatever axes and in whatever state each call finds
    them (shot series already plotted included); and plotting a series
    afterwards leaves the patches as they are. *)
Theorem court_rendering_deterministic (lib : Library) (color : string)
    (lw : Q) (outer_lines : bool)
    (ax1 : option nat) (w1 w01 : World) (h1 : nat) (a1 : Axes)
    (ax2 : option nat) (w2 w02 : World) (h2 : nat) (a2 : Axes) :
  is_color_like lib color = true →
  ax_or_gca ax1 w1 = Returns h1 w01 →
  axes w01 !! h1 = Some a1 →
  ax_or_gca ax2 w2 = Returns h2 w02 →
  axes w02 !! h2 = Some a2 →
  ∃ added w1' a1' w2' a2',
    draw_court lib ax1 color lw outer_lines w1 = Returns tt w1'
    ∧ axes w1' !! h1 = Some a1'
    ∧ patches a1' = patches a1 ++ added
    ∧ draw_court lib ax2 color lw outer_lines w2 = Returns tt w2'
    ∧ axes w2' !! h2 = Some a2'
    ∧ patches a2' = patches a2 ++ added
    ∧ ∀ x y st b b',
        scatter lib x y st b = inr b' → patches b' = patches b.
Proof.
  intros Hcolor Hax1 Ha1 Hax2 Ha2.
  eexists _, _, _, _, _.
  split; [by apply (draw_court_returns lib ax1)|].
  split; [apply lookup_insert_eq|].
  split; [apply patches_add_patches|].
  split; [by apply (draw_court_returns lib ax2)|].
  split; [apply lookup_insert_eq|].
  split; [apply patches_add_patches|].
  intros x y st b b'. unfold scatter.
  case_bool_decide; [|done]. intros [= <-].
  unfold patches, autoscale_view. cbn [children].
  by rewrite omap_app, app_nil_r.
Qed.

(** The second call runs on the axes the first one has drawn on. *)
Lemma court_drawn_twice_example :
  ∃ added w1' a1' w2' a2',
    draw_court example.library (Some 0%nat) "blue" 1 false example.world
    = Returns tt w1'
    ∧ axes w1' !! 0%nat = Some a1'
    ∧ patches a1' = added
    ∧ draw_court example.library None "blue" 1 false
        (store_axes 0 (add_patches (court_calls "blue" 1) new_axes)
           example.world) = Returns tt w2'
    ∧ axes w2' !! 0%nat = Some a2'
    ∧ patches a2' = added ++ added.
Proof.
  destruct (court_rendering_deterministic example.library "blue" 1 false
              (Some 0%nat) example.world example.world 0 new_axes
              None
              (store_axes 0 (add_patches (court_calls "blue" 1) new_axes)
                 example.world)
              (store_axes 0 (add_patches (court_calls "blue" 1) new_axes)
                 example.world)
              0 (add_patches (court_calls "blue" 1) new_axes)
              eq_refl eq_refl eq_refl eq_refl eq_refl)
    as (added & w1' & a1' & w2' & a2' & H1 & Ha1 & Hp1 & H2 & Ha2 & Hp2 & _).
  exists added, w1', a1', w2', a2'.
  repeat split; try assumption.
  rewrite Hp2. f_equal.
  pose proof (draw_court_returns example.library (Some 0%nat) "blue" 1 false
                example.world example.world 0 new_axes
                eq_refl eq_refl eq_refl) as Hrun.
  rewrite Hrun in H1. injection H1 as <-.
  simpl in Ha1. rewrite lookup_insert_eq in Ha1. injection Ha1 as <-.
  exact Hp1.
Defined.

(** * Further properties of the retriever *)

(** What a directory entry found by the generator of line 25 satisfies. *)
Lemma find_by_name (directory : list Player) (player_name : string)
    (player : Player) :
  find (λ p, bool_decide (full_name p = player_name)) directory = Some player →
  player ∈ directory ∧ full_name player = player_name.
Proof.
  intros [Hin Hname]%find_some. split.
  - by apply list_elem_of_In.
  - by apply bool_decide_eq_true in Hname.
Qed.

(** The outcome of the retriever, by the point at which it stops. *)
Lemma retriever_cases {frame : Type} (provider : Provider frame)
    (player_name season_id : string) (tr : list Request) :
  let run := get_player_shotchartdetail provider player_name season_id tr in
  (find (λ p, bool_decide (full_name p = player_name)) (get_players provider)
   = None
   ∧ run = (inl (PlayerNotFound player_name), tr ++ [ReqPlayers]))
  ∨ ∃ player,
      find (λ p, bool_decide (full_name p = player_name)) (get_players provider)
      = Some player
      ∧ ((∃ e, PlayerCareerStats provider (id player) = inl e
               ∧ run = (inl e, tr ++ [ReqPlayers; ReqCareer (id player)]))
         ∨ (PlayerCareerStats provider (id player) = inr []
            ∧ run = (inl (IndexError "list index out of range"),
                     tr ++ [ReqPlayers; ReqCareer (id player)]))
         ∨ (∃ career_df others,
              PlayerCareerStats provider (id player) = inr (career_df :: others)
              ∧ filter (λ r, SEASON_ID r = season_id) career_df = []
              ∧ run = (inl SeasonNotFound,
                       tr ++ [ReqPlayers; ReqCareer (id player)]))
         ∨ (∃ career_df others row rest,
              PlayerCareerStats provider (id player) = inr (career_df :: others)
              ∧ filter (λ r, SEASON_ID r = season_id) career_df = row :: rest
              ∧ run = fetch_shotchart provider (TEAM_ID row) (id player)
                        season_id (tr ++ [ReqPlayers; ReqCareer (id player)]))).
Proof.
  unfold get_player_shotchartdetail, mbind, fetch_mbind, fetch_bind, request.
  destruct (find _ (get_players provider)) as [player|] eqn:Hfind;
    [right; exists player; split; [done|] | left; by split].
  rewrite <- app_assoc. simpl.
  destruct (PlayerCareerStats provider (id player)) as [e|[|career_df others]]
    eqn:Hcareer; simpl.
  - left. by exists e.
  - right; left. done.
  - rewrite loc_eq_mask.
    destruct (filter (λ r, SEASON_ID r = season_id) career_df)
      as [|row rest] eqn:Hsel; simpl.
    + right; right; left. by exists career_df, others.
    + right; right; right. by exists career_df, others, row, rest.
Qed.

(** The shot-chart stage makes exactly one request, its query. *)
Lemma fetch_shotchart_trace {frame : Type} (provider : Provider frame)
    (team player : Z) (season_id : string) (tr : list Request) :
  (fetch_shotchart provider team player season_id tr).2
  = tr ++ [ReqShotChart
             (MkShotQuery team player "Regular Season" season_id "FGA")].
Proof.
  unfold fetch_shotchart, mbind, fetch_mbind, fetch_bind, request, lift.
  destruct (ShotChartDetail provider _) as [e|shotchart]; [done|]. simpl.
  destruct (getitem shotchart 0) as [e|shots]; [done|].
  by destruct (getitem shotchart 1) as [e|league].
Qed.

(** X1.  Whatever the provider answers, the retriever extends the request
    trace by the directory lookup alone, by the directory lookup and one
    career lookup, or by these two and one shot-chart query, in this order;
    and it returns frames only in the last case. *)
Theorem retriever_request_protocol {frame : Type} (provider : Provider frame)
    (player_name season_id : string) (tr : list Request) :
  ∃ added,
    (get_player_shotchartdetail provider player_name season_id tr).2
    = tr ++ added
    ∧ (added = [ReqPlayers]
       ∨ (∃ pid, added = [ReqPlayers; ReqCareer pid])
       ∨ (∃ pid q, added = [ReqPlayers; ReqCareer pid; ReqShotChart q]))
    ∧ ∀ result,
        (get_player_shotchartdetail provider player_name season_id tr).1
        = inr result →
        ∃ pid q, added = [ReqPlayers; ReqCareer pid; ReqShotChart q].
Proof.
  destruct (retriever_cases provider player_name season_id tr)
    as [[_ ->]|(player & _ & [(e & _ & ->)|[[_ ->]|[(df & others & _ & _ & ->)
       |(df & others & row & rest & _ & _ & ->)]]])]; simpl.
  - exists [ReqPlayers]. split; [done|]. split; [by left|done].
  - eexists. split; [done|]. split; [right; left; by eexists|done].
  - eexists. split; [done|]. split; [right; left; by eexists|done].
  - eexists. split; [done|]. split; [right; left; by eexists|done].
  - exists [ReqPlayers; ReqCareer (id player);
            ReqShotChart (MkShotQuery (TEAM_ID row) (id player)
                            "Regular Season" season_id "FGA")].
    rewrite fetch_shotchart_trace, <- app_assoc.
    split; [done|]. split; [right; right; by eexists _, _|].
    intros _ _. by eexists _, _.
Qed.

(** X2.  Every shot-chart query the retriever sends asks for regular-season
    field-goal attempts of the requested season, for a directory entry of
    exactly the requested name whose career it has looked up, and for a team
    that a row of that season in the career frame names. *)
Theorem shot_query_parameters {frame : Type} (provider : Provider frame)
    (player_name season_id : string) (tr : list Request) :
  ∃ added,
    (get_player_shotchartdetail provider player_name season_id tr).2
    = tr ++ added
    ∧ ∀ q, ReqShotChart q ∈ added →
        season_type_all_star q = "Regular Season"
        ∧ context_measure_simple q = "FGA"
        ∧ season_nullable q = season_id
        ∧ ∃ player career_df others row,
            player ∈ get_players provider
            ∧ full_name player = player_name
            ∧ player_id q = id player
            ∧ ReqCareer (id player) ∈ added
            ∧ PlayerCareerStats provider (id player)
              = inr (career_df :: others)
            ∧ row ∈ career_df
            ∧ SEASON_ID row = season_id
            ∧ team_id q = TEAM_ID row.
Proof.
  destruct (retriever_cases provider player_name season_id tr)
    as [[_ ->]|(player & Hfind & [(e & _ & ->)|[[_ ->]|[(df & others & _ & _ & ->)
       |(df & others & row & rest & Hcareer & Hsel & ->)]]])]; simpl.
  1-4: eexists; split; [done|]; intros q Hq;
       repeat (apply elem_of_cons in Hq as [[=]|Hq]); by apply elem_of_nil in Hq.
  exists [ReqPlayers; ReqCareer (id player);
          ReqShotChart (MkShotQuery (TEAM_ID row) (id player)
                          "Regular Season" season_id "FGA")].
  rewrite fetch_shotchart_trace, <- app_assoc. split; [done|].
  intros q Hq.
  repeat (apply elem_of_cons in Hq as [Hq|Hq]; [try discriminate Hq|]);
    [|by apply elem_of_nil in Hq].
  injection Hq as ->. simpl. do 3 (split; [done|]).
  destruct (find_by_name _ _ _ Hfind) as [Hin Hname].
  assert (row ∈ filter (λ r, SEASON_ID r = season_id) df) as Hrow
    by (rewrite Hsel; left).
  apply list_elem_of_filter in Hrow as [Hseason Hrow].
  exists player, df, others, row.
  repeat split; try done. right; left.
Qed.

(** X3.  The retriever stops right after the directory lookup, with the
    player-not-found error, exactly when no directory entry has the requested
    full name. *)
Theorem stops_at_directory_iff_unknown {frame : Type}
    (provider : Provider frame) (player_name season_id : string)
    (tr : list Request) :
  get_player_shotchartdetail provider player_name season_id tr
  = (inl (PlayerNotFound player_name), tr ++ [ReqPlayers])
  ↔ ∀ p, p ∈ get_players provider → full_name p ≠ player_name.
Proof.
  split.
  - intros Hrun p Hp Hname.
    assert ((get_player_shotchartdetail provider player_name season_id tr).2
            = tr ++ [ReqPlayers]) as Htrace by (by rewrite Hrun).
    clear Hrun.
    destruct (retriever_cases provider player_name season_id tr)
      as [[Hfind _]|(player & _ & [(e & _ & Hrun)|[[_ Hrun]
         |[(df & others & _ & _ & Hrun)|(df & others & row & rest & _ & _ & Hrun)]]])].
    + assert (In p (get_players provider)) as Hin by (by apply list_elem_of_In).
      pose proof (find_none _ _ Hfind p Hin) as Hfalse.
      by apply bool_decide_eq_false in Hfalse.
    + rewrite Hrun in Htrace. by apply app_inv_head in Htrace.
    + rewrite Hrun in Htrace. by apply app_inv_head in Htrace.
    + rewrite Hrun in Htrace. by apply app_inv_head in Htrace.
    + rewrite Hrun, fetch_shotchart_trace, <- app_assoc in Htrace.
      by apply app_inv_head in Htrace.
  - intros Hno.
    unfold get_player_shotchartdetail, mbind, fetch_mbind, fetch_bind, request.
    by rewrite (find_no_match _ _ Hno).
Qed.

(** X4.  An exception raised by the career endpoint reaches the caller
    unchanged, and no shot-chart query is made. *)
Theorem career_error_propagates {frame : Type} (provider : Provider frame)
    (player_name season_id : string) (player : Player) (e : PyExn)
    (tr : list Request) :
  resolves_to (get_players provider) player_name player →
  PlayerCareerStats provider (id player) = inl e →
  get_player_shotchartdetail provider player_name season_id tr
  = (inl e, tr ++ [ReqPlayers; ReqCareer (id player)]).
Proof.
  intros Hplayer Hcareer.
  unfold get_player_shotchartdetail, mbind, fetch_mbind, fetch_bind, request.
  rewrite (find_resolves _ _ _ Hplayer), Hcareer. simpl.
  by rewrite <- app_assoc.
Qed.

Lemma career_error_example :
  get_player_shotchartdetail faulty.career_down "Zach Edey" "2024-25" []
  = (inl faulty.read_timeout, [ReqPlayers; ReqCareer 1641744]).
Proof.
  exact (career_error_propagates faulty.career_down "Zach Edey" "2024-25"
           (MkPlayer 1641744 "Zach Edey") faulty.read_timeout []
           edey_resolves eq_refl).
Defined.

(** X5.  When the career endpoint answers without any frame, indexing the
    answer raises Python's list IndexError (not the season-not-found error),
    and no shot-chart query is made. *)
Theorem empty_career_response_raises {frame : Type} (provider : Provider frame)
    (player_name season_id : string) (player : Player) (tr : list Request) :
  resolves_to (get_players provider) player_name player →
  PlayerCareerStats provider (id player) = inr [] →
  get_player_shotchartdetail provider player_name season_id tr
  = (inl (IndexError "list index out of range"),
     tr ++ [ReqPlayers; ReqCareer (id player)])
  ∧ IndexError "list index out of range" ≠ SeasonNotFound.
Proof.
  intros Hplayer Hcareer. split; [|discriminate].
  unfold get_player_shotchartdetail, mbind, fetch_mbind, fetch_bind, request.
  rewrite (find_resolves _ _ _ Hplayer), Hcareer. simpl.
  by rewrite <- app_assoc.
Qed.

Lemma empty_career_response_example :
  get_player_shotchartdetail faulty.career_empty "Zach Edey" "2024-25" []
  = (inl (IndexError "list index out of range"),
     [ReqPlayers; ReqCareer 1641744])
  ∧ IndexError "list index out of range" ≠ SeasonNotFound.
Proof.
  exact (empty_career_response_raises faulty.career_empty "Zach Edey"
           "2024-25" (MkPlayer 1641744 "Zach Edey") [] edey_resolves eq_refl).
Defined.

(** X6.  When the shot-chart endpoint answers with fewer than two frames,
    the retriever raises Python's list IndexError after the query instead of
    returning. *)
Theorem short_shot_response_raises {frame : Type} (provider : Provider frame)
    (player_name season_id : string) (player : Player)
    (pre post : list CareerRow) (row : CareerRow)
    (others : list (list CareerRow)) (shotchart : list frame)
    (tr : list Request) :
  resolves_to (get_players provider) player_name player →
  PlayerCareerStats provider (id player) = inr ((pre ++ row :: post) :: others) →
  Forall (λ r, SEASON_ID r ≠ season_id) pre →
  SEASON_ID row = season_id →
  let q := MkShotQuery (TEAM_ID row) (id player) "Regular Season" season_id "FGA" in
  ShotChartDetail provider q = inr shotchart →
  (length shotchart < 2)%nat →
  get_player_shotchartdetail provider player_name season_id tr
  = (inl (IndexError "list index out of range"),
     tr ++ [ReqPlayers; ReqCareer (id player); ReqShotChart q]).
Proof.
  intros Hplayer Hcareer Hpre Hrow q Hshots Hlen.
  rewrite (retriever_reaches_query _ _ _ _ _ _ _ _ _ Hplayer Hcareer Hpre Hrow).
  unfold fetch_shotchart, mbind, fetch_mbind, fetch_bind, request, lift.
  fold q. rewrite Hshots, <- app_assoc. simpl.
  destruct shotchart as [|shots [|league more]]; simpl in *; [done|done|lia].
Qed.

Lemma short_shot_response_example :
  get_player_shotchartdetail faulty.shots_only "Zach Edey" "2024-25" []
  = (inl (IndexError "list index out of range"),
     [ReqPlayers; ReqCareer 1641744;
      ReqShotChart
        (MkShotQuery 1610612763 1641744 "Regular Season" "2024-25" "FGA")]).
Proof.
  apply (short_shot_response_raises faulty.shots_only "Zach Edey" "2024-25"
           (MkPlayer 1641744 "Zach Edey")
           [MkCareerRow "2023-24" 1610612766]
           [MkCareerRow "2024-25" 1610612737]
           (MkCareerRow "2024-25" 1610612763) [] [example.shots] []).
  - exact edey_resolves.
  - reflexivity.
  - constructor; [discriminate|constructor].
  - reflexivity.
  - reflexivity.
  - simpl. lia.
Defined.

(** X7.  On success the retriever returns the first two frames of the
    shot-chart answer, in order; frames after the second are dropped, and of
    several directory entries with the requested name the first is the one
    queried. *)
Theorem retriever_returns_first_two_frames {frame : Type}
    (provider : Provider frame) (player_name season_id : string)
    (player : Player) (pre post : list CareerRow) (row : CareerRow)
    (others : list (list CareerRow)) (shots league : frame)
    (more : list frame) (tr : list Request) :
  resolves_to (get_players provider) player_name player →
  PlayerCareerStats provider (id player) = inr ((pre ++ row :: post) :: others) →
  Forall (λ r, SEASON_ID r ≠ season_id) pre →
  SEASON_ID row = season_id →
  let q := MkShotQuery (TEAM_ID row) (id player) "Regular Season" season_id "FGA" in
  ShotChartDetail provider q = inr (shots :: league :: more) →
  get_player_shotchartdetail provider player_name season_id tr
  = (inr (shots, league),
     tr ++ [ReqPlayers; ReqCareer (id player); ReqShotChart q]).
Proof.
  intros Hplayer Hcareer Hpre Hrow q Hshots.
  rewrite (retriever_reaches_query _ _ _ _ _ _ _ _ _ Hplayer Hcareer Hpre Hrow).
  unfold fetch_shotchart, mbind, fetch_mbind, fetch_bind, request, lift.
  fold q. by rewrite Hshots, <- app_assoc.
Qed.

Lemma namesakes_example :
  get_player_shotchartdetail faulty.namesakes "Zach Edey" "2024-25" []
  = (inr (example.shots, []),
     [ReqPlayers; ReqCareer 7;
      ReqShotChart (MkShotQuery 1610612763 7 "Regular Season" "2024-25" "FGA")]).
Proof.
  apply (retriever_returns_first_two_frames faulty.namesakes "Zach Edey"
           "2024-25" (MkPlayer 7 "Zach Edey")
           [MkCareerRow "2023-24" 1610612766]
           [MkCareerRow "2024-25" 1610612737]
           (MkCareerRow "2024-25" 1610612763) [] example.shots [] [[]] []).
  - exists [], [MkPlayer 1641744 "Zach Edey"]. by repeat split.
  - reflexivity.
  - constructor; [discriminate|constructor].
  - reflexivity.
  - reflexivity.
Defined.

(** * Further properties of the court renderer *)

(** X8.  Every patch [draw_court] adds for a colour matplotlib accepts, the
    outer boundary included, is stroked in the colour and the line width the
    call was given. *)
Theorem draw_court_style (lib : Library) (ax : option nat) (color : string)
    (lw : Q) (outer_lines : bool) (w w0 : World) (h : nat) (a : Axes) :
  is_color_like lib color = true →
  ax_or_gca ax w = Returns h w0 →
  axes w0 !! h = Some a →
  ∃ w' a' added,
    draw_court lib ax color lw outer_lines w = Returns tt w'
    ∧ axes w' !! h = Some a'
    ∧ patches a' = patches a ++ added
    ∧ Forall (λ p, patch_color p = color ∧ patch_linewidth p = lw) added.
Proof.
  intros Hcolor Hax Ha.
  eexists _, _, _.
  split; [by apply draw_court_returns|].
  split; [apply lookup_insert_eq|].
  split; [apply patches_add_patches|].
  destruct outer_lines; by repeat constructor.
Qed.

Lemma draw_court_style_example :
  ∃ w' a' added,
    draw_court example.library None "white" 3 true example.world
    = Returns tt w'
    ∧ axes w' !! 0%nat = Some a'
    ∧ patches a' = added
    ∧ Forall (λ p, patch_color p = "white" ∧ patch_linewidth p = 3) added.
Proof.
  exact (draw_court_style example.library None "white" 3 true example.world
           example.world 0 new_axes eq_refl eq_refl eq_refl).
Defined.

(** X9.  For a colour matplotlib accepts, [draw_court] only appends patches
    to the artists of the axes it draws on: the artists that were there
    come first and unchanged, and the view limits and autoscale switches,
    the title, the tick labels, the scatter collections, the containers and
    the legend of that axes stay as they were, and so do the frames and
    every other axes. *)
Theorem draw_court_touches_patches_only (lib : Library) (ax : option nat)
    (color : string) (lw : Q) (outer_lines : bool) (w w0 : World) (h : nat)
    (a : Axes) :
  is_color_like lib color = true →
  ax_or_gca ax w = Returns h w0 →
  axes w0 !! h = Some a →
  ∃ w' a' added,
    draw_court lib ax color lw outer_lines w = Returns tt w'
    ∧ axes w' !! h = Some a'
    ∧ children a' = children a ++ ((λ p, PatchArtist p "") <$> added)
    ∧ xlim a' = xlim a ∧ ylim a' = ylim a
    ∧ autoscalex_on a' = autoscalex_on a
    ∧ autoscaley_on a' = autoscaley_on a
    ∧ title a' = title a ∧ title_fontsize a' = title_fontsize a
    ∧ labelbottom a' = labelbottom a ∧ labelleft a' = labelleft a
    ∧ collections a' = collections a
    ∧ containers a' = containers a
    ∧ legend_ a' = legend_ a
    ∧ frames w' = frames w
    ∧ ∀ h', h' ≠ h → axes w' !! h' = axes w !! h'.
Proof.
  intros Hcolor Hax Ha.
  destruct (ax_or_gca_frame _ _ _ _ Hax) as [Hframes Hothers].
  eexists _, _, _.
  split; [by apply draw_court_returns|].
  split; [apply lookup_insert_eq|].
  split; [done|].
  do 8 (split; [done|]).
  split; [apply collections_add_patches|].
  do 3 (split; [done|]).
  intros h' Hne. simpl. rewrite lookup_insert_ne by done. by apply Hothers.
Qed.

(** The axes of the example already carries a chart with a title, limits and
    two series when the court is drawn once more. *)
Lemma draw_court_touches_patches_only_example :
  let a := shot_chart_on example.shots "first" 2 "blue" new_axes in
  ∃ w' a',
    draw_court example.library (Some 0%nat) "red" 1 false
      (store_axes 0 a example.world) = Returns tt w'
    ∧ axes w' !! 0%nat = Some a'
    ∧ xlim a' = (-250, 250) ∧ ylim a' = (422.5, -47.5)
    ∧ title a' = "first"
    ∧ collections a' = collections a
    ∧ legend_ a' = Some ["Missed"; "Made"].
Proof.
  intros a.
  destruct (draw_court_touches_patches_only example.library (Some 0%nat)
              "red" 1 false (store_axes 0 a example.world)
              (store_axes 0 a example.world) 0 a eq_refl eq_refl eq_refl)
    as (w' & a' & added & Hrun & Ha' & _ & Hx & Hy & _ & _ & Ht & _ & _ & _
        & Hc & _ & Hl & _).
  exists w', a'. repeat split; assumption.
Defined.

(** X10.  Called without an axes while no axes is current, and with a colour
    matplotlib accepts, [draw_court] creates a new axes under a reference
    that was free, makes it the current one, draws the court on it, and
    leaves every existing axes as it was. *)
Theorem draw_court_opens_axes (lib : Library) (color : string) (lw : Q)
    (outer_lines : bool) (w : World) :
  is_color_like lib color = true →
  current_axes w = None →
  ∃ h w' a',
    draw_court lib None color lw outer_lines w = Returns tt w'
    ∧ axes w !! h = None
    ∧ current_axes w' = Some h
    ∧ axes w' !! h = Some a'
    ∧ patches a'
      = court_calls color lw
        ++ (if outer_lines
            then [Rectangle (-250, -47.5) 500 470 lw color false] else [])
    ∧ xlim a' = xlim new_axes ∧ ylim a' = ylim new_axes
    ∧ collections a' = []
    ∧ ∀ h', h' ≠ h → axes w' !! h' = axes w !! h'.
Proof.
  intros Hcolor Hcur.
  set (h := fresh (dom (axes w))).
  set (w0 := MkWorld (frames w) (<[h := new_axes]> (axes w)) (Some h)).
  assert (ax_or_gca None w = Returns h w0) as Hax
    by (unfold ax_or_gca, gca; by rewrite Hcur).
  assert (axes w0 !! h = Some new_axes) as Ha by apply lookup_insert_eq.
  eexists h, _, _.
  split;
    [by apply (draw_court_returns lib None color lw outer_lines w w0 h
                 new_axes)|].
  split; [apply not_elem_of_dom, is_fresh|].
  split; [done|]. split; [apply lookup_insert_eq|].
  split.
  { rewrite patches_add_patches.
    destruct outer_lines; simpl; by rewrite ?app_nil_r. }
  do 2 (split; [done|]).
  split; [by rewrite collections_add_patches|].
  intros h' Hne. simpl. by rewrite !lookup_insert_ne.
Qed.

Lemma draw_court_opens_axes_example :
  ∃ h w' a',
    draw_court example.library None "blue" 1 false example.blank
    = Returns tt w'
    ∧ axes example.blank !! h = None
    ∧ current_axes w' = Some h
    ∧ axes w' !! h = Some a'
    ∧ patches a' = court_calls "blue" 1 ++ [].
Proof.
  destruct (draw_court_opens_axes example.library "blue" 1 false
              example.blank eq_refl eq_refl)
    as (h & w' & a' & Hrun & Hfree & Hcur & Ha' & Hps & _).
  exists h, w', a'. repeat split; assumption.
Defined.

(** X19.  For a colour matplotlib does not accept, [draw_court] raises the
    [ValueError] of the first patch constructor: this happens after the axes
    has been resolved (so a new current axes may have been created) and
    before any patch is added, so every axes that existed is unchanged and a
    newly created one is empty. *)
Theorem draw_court_rejects_color (lib : Library) (ax : option nat)
    (color : string) (lw : Q) (outer_lines : bool) (w w0 : World) (h : nat)
    (a : Axes) :
  is_color_like lib color = false →
  ax_or_gca ax w = Returns h w0 →
  axes w0 !! h = Some a →
  ∃ e,
    draw_court lib ax color lw outer_lines w = Raises e w0
    ∧ e = ValueError (color_error lib color)
    ∧ frames w0 = frames w
    ∧ (∀ h' a', axes w !! h' = Some a' → axes w0 !! h' = Some a')
    ∧ (axes w !! h = None → a = new_axes).
Proof.
  intros Hcolor Hax Ha.
  exists (ValueError (color_error lib color)).
  split; [by apply draw_court_raises with (h := h)|].
  split; [done|].
  destruct ax as [h1|]; simpl in Hax.
  - injection Hax as <- <-. repeat split; [done|].
    intros Hnone. congruence.
  - unfold gca in Hax. destruct (current_axes w) as [hc|] eqn:Hcur.
    + injection Hax as <- <-. repeat split; [done|].
      intros Hnone. congruence.
    + injection Hax as <- <-. simpl in *.
      rewrite lookup_insert_eq in Ha. injection Ha as <-.
      repeat split.
      intros h' a' Hh'. rewrite lookup_insert_ne; [done|].
      intros <-.
      assert (fresh (dom (axes w)) ∈ dom (axes w)) as Hin
        by (apply elem_of_dom; eauto).
      by apply is_fresh in Hin.
Qed.

(** No figure is open: the call creates the current axes and then raises,
    leaving that axes empty. *)
Lemma draw_court_rejects_color_example :
  ∃ e,
    draw_court example.library None "bleu" 1 false example.blank
    = Raises e example.world
    ∧ e = ValueError "Invalid RGBA argument: 'bleu'"
    ∧ frames example.world = frames example.blank.
Proof.
  destruct (draw_court_rejects_color example.library None "bleu" 1 false
              example.blank example.world 0 new_axes
              eq_refl eq_refl eq_refl)
    as (e & Hrun & He & Hframes & _).
  exists e. repeat split; assumption.
Defined.

(** * Further properties of the shot plotter *)

(** X11.  When the plotter returns (the line colour is one matplotlib
    accepts), the axes carries the given title at font size 18, the tick
    labels of both axes are off, and autoscaling is off on both axes: none
    of the later drawing calls undoes the configuration of lines 84-87. *)
Theorem chart_decorations (lib : Library) (data : nat) (title : string)
    (ax : option nat) (court_color : string) (court_lw : Q)
    (line_color : string) (w w0 : World) (h : nat) (a : Axes)
    (df : list ShotRow) :
  is_color_like lib line_color = true →
  ax_or_gca ax w = Returns h w0 →
  axes w0 !! h = Some a →
  frames w !! data = Some df →
  ∃ w' a',
    plot_shot_chart lib data title ax court_color court_lw line_color w
    = Returns tt w'
    ∧ axes w' !! h = Some a'
    ∧ mpl.title a' = title
    ∧ title_fontsize a' = Some 18
    ∧ labelbottom a' = false ∧ labelleft a' = false
    ∧ autoscalex_on a' = false ∧ autoscaley_on a' = false.
Proof.
  intros Hcolor Hax Ha Hdf.
  eexists _, _.
  split; [by apply plot_shot_chart_returns|].
  split; [apply lookup_insert_eq|done].
Qed.

Lemma chart_decorations_example :
  ∃ w' a',
    plot_shot_chart example.library 0 "Zach Edey Shot Chart 2024-25" None
      "white" 2 "blue" example.world = Returns tt w'
    ∧ axes w' !! 0%nat = Some a'
    ∧ mpl.title a' = "Zach Edey Shot Chart 2024-25"
    ∧ title_fontsize a' = Some 18
    ∧ labelbottom a' = false ∧ labelleft a' = false
    ∧ autoscalex_on a' = false ∧ autoscaley_on a' = false.
Proof.
  exact (chart_decorations example.library 0
           "Zach Edey Shot Chart 2024-25" None "white" 2 "blue"
           example.world example.world 0 new_axes example.shots
           eq_refl eq_refl eq_refl eq_refl).
Defined.

(** X12.  The legend the plotter leaves (for a line colour matplotlib
    accepts) lists the entries of the artists that were on the axes before,
    lines and labelled patches included, in the order they were added, then
    "Missed" and "Made" in this order, then the labelled containers of the
    axes; the court patches have no entry. *)
Theorem legend_entries (lib : Library) (data : nat) (title : string)
    (ax : option nat) (court_color : string) (court_lw : Q)
    (line_color : string) (w w0 : World) (h : nat) (a : Axes)
    (df : list ShotRow) :
  is_color_like lib line_color = true →
  ax_or_gca ax w = Returns h w0 →
  axes w0 !! h = Some a →
  frames w !! data = Some df →
  ∃ w' a',
    plot_shot_chart lib data title ax court_color court_lw line_color w
    = Returns tt w'
    ∧ axes w' !! h = Some a'
    ∧ legend_ a'
      = Some (omap legend_entry (children a)
              ++ ["Missed"; "Made"]
              ++ List.filter legend_shows (containers a)).
Proof.
  intros Hcolor Hax Ha Hdf.
  eexists _, _.
  split; [by apply plot_shot_chart_returns|].
  split; [apply lookup_insert_eq|].
  unfold shot_chart_on. cbn [legend_].
  rewrite !omap_app, entries_of_patch_artists. simpl.
  by rewrite <- app_assoc.
Qed.

(** An axes that already carries a labelled line, an unlabelled line and a
    bar plot; the frame has no shot at all. *)
Lemma legend_entries_example :
  ∃ w' a',
    plot_shot_chart example.library 0 "" None "white" 2 "blue"
      (MkWorld {[ 0%nat := [] ]} {[ 0%nat := example.busy_axes ]}
         (Some 0%nat))
    = Returns tt w'
    ∧ axes w' !! 0%nat = Some a'
    ∧ legend_ a' = Some ["Line"; "Missed"; "Made"; "Bars"].
Proof.
  exact (legend_entries example.library 0 "" None "white" 2 "blue"
           (MkWorld {[ 0%nat := [] ]} {[ 0%nat := example.busy_axes ]}
              (Some 0%nat))
           (MkWorld {[ 0%nat := [] ]} {[ 0%nat := example.busy_axes ]}
              (Some 0%nat))
           0 example.busy_axes [] eq_refl eq_refl eq_refl eq_refl).
Defined.

(** Rows with one outcome, rows with another, and the rest make up the
    frame. *)
Lemma outcome_counts (df : list ShotRow) (u v : string) :
  u ≠ v →
  (length (filter (λ r, EVENT_TYPE r = u) df)
   + length (filter (λ r, EVENT_TYPE r = v) df)
   + length (filter (λ r, EVENT_TYPE r ≠ u ∧ EVENT_TYPE r ≠ v) df)
   = length df)%nat.
Proof.
  intros Huv. induction df as [|r df IH]; [done|].
  rewrite !filter_cons.
  repeat case_decide; simpl; first [lia | exfalso; congruence | exfalso; tauto].
Qed.

(** X13.  When the plotter returns (the line colour is one matplotlib
    accepts), every record has been plotted at most once: the points of the
    Missed series, the points of the Made series and the records whose
    outcome is neither add up to the number of records of the frame. *)
Theorem plotted_points_count (lib : Library) (data : nat) (title : string)
    (ax : option nat) (court_color : string) (court_lw : Q)
    (line_color : string) (w w0 : World) (h : nat) (a : Axes)
    (df : list ShotRow) :
  is_color_like lib line_color = true →
  ax_or_gca ax w = Returns h w0 →
  axes w0 !! h = Some a →
  frames w !! data = Some df →
  ∃ w' a' missed made,
    plot_shot_chart lib data title ax court_color court_lw line_color w
    = Returns tt w'
    ∧ axes w' !! h = Some a'
    ∧ collections a' = collections a ++ [missed; made]
    ∧ (length (offsets missed) + length (offsets made)
       + length (filter (λ r, EVENT_TYPE r ≠ "Missed Shot"
                              ∧ EVENT_TYPE r ≠ "Made Shot") df)
       = length df)%nat.
Proof.
  intros Hcolor Hax Ha Hdf.
  eexists _, _, (missed_series df), (made_series df).
  split; [by apply plot_shot_chart_returns|].
  split; [apply lookup_insert_eq|].
  split; [apply collections_shot_chart_on|].
  simpl. rewrite !length_fmap. by apply outcome_counts.
Qed.

Lemma plotted_points_count_example :
  ∃ w' a' missed made,
    plot_shot_chart example.library 0 "" None "white" 2 "blue"
      example.world = Returns tt w'
    ∧ axes w' !! 0%nat = Some a'
    ∧ collections a' = [missed; made]
    ∧ (length (offsets missed) + length (offsets made) + 1 = 4)%nat.
Proof.
  exact (plotted_points_count example.library 0 "" None "white" 2 "blue"
           example.world example.world 0 new_axes example.shots
           eq_refl eq_refl eq_refl eq_refl).
Defined.

(** X14.  The order of the records does not matter to what is plotted: for
    two frames that hold the same records in a different order (and a line
    colour matplotlib accepts), each series of the one chart is a
    rearrangement of the same series of the other. *)
Theorem row_order_irrelevant (lib : Library) (data1 data2 : nat)
    (title : string) (ax : option nat) (court_color : string) (court_lw : Q)
    (line_color : string) (w w0 : World) (h : nat) (a : Axes)
    (df1 df2 : list ShotRow) :
  is_color_like lib line_color = true →
  ax_or_gca ax w = Returns h w0 →
  axes w0 !! h = Some a →
  frames w !! data1 = Some df1 →
  frames w !! data2 = Some df2 →
  df1 ≡ₚ df2 →
  ∃ w1 a1 missed1 made1 w2 a2 missed2 made2,
    plot_shot_chart lib data1 title ax court_color court_lw line_color w
    = Returns tt w1
    ∧ axes w1 !! h = Some a1
    ∧ collections a1 = collections a ++ [missed1; made1]
    ∧ plot_shot_chart lib data2 title ax court_color court_lw line_color w
      = Returns tt w2
    ∧ axes w2 !! h = Some a2
    ∧ collections a2 = collections a ++ [missed2; made2]
    ∧ offsets missed1 ≡ₚ offsets missed2
    ∧ offsets made1 ≡ₚ offsets made2
    ∧ patches a1 = patches a2.
Proof.
  intros Hcolor Hax Ha Hdf1 Hdf2 Hperm.
  eexists _, _, (missed_series df1), (made_series df1),
    _, _, (missed_series df2), (made_series df2).
  split; [by apply plot_shot_chart_returns|].
  split; [apply lookup_insert_eq|].
  split; [apply collections_shot_chart_on|].
  split; [by apply plot_shot_chart_returns|].
  split; [apply lookup_insert_eq|].
  split; [apply collections_shot_chart_on|].
  rewrite !patches_shot_chart_on. simpl. by rewrite Hperm.
Qed.

Lemma row_order_irrelevant_example :
  let df := [MkShotRow 1 2 "Made Shot"; MkShotRow 3 4 "Made Shot"] in
  let fd := [MkShotRow 3 4 "Made Shot"; MkShotRow 1 2 "Made Shot"] in
  let w := MkWorld {[ 0%nat := df; 1%nat := fd ]} {[ 0%nat := new_axes ]}
             (Some 0%nat) in
  ∃ w1 a1 missed1 made1 w2 a2 missed2 made2,
    plot_shot_chart example.library 0 "" None "white" 2 "blue" w
    = Returns tt w1
    ∧ axes w1 !! 0%nat = Some a1
    ∧ collections a1 = [missed1; made1]
    ∧ plot_shot_chart example.library 1 "" None "white" 2 "blue" w
      = Returns tt w2
    ∧ axes w2 !! 0%nat = Some a2
    ∧ collections a2 = [missed2; made2]
    ∧ offsets missed1 ≡ₚ offsets missed2
    ∧ offsets made1 ≡ₚ offsets made2.
Proof.
  intros df fd w.
  destruct (row_order_irrelevant example.library 0 1 "" None "white" 2
              "blue" w w 0 new_axes df fd eq_refl eq_refl eq_refl eq_refl
              eq_refl (perm_swap _ _ []))
    as (w1 & a1 & m1 & d1 & w2 & a2 & m2 & d2
        & H1 & Ha1 & Hc1 & H2 & Ha2 & Hc2 & Hm & Hd & _).
  exists w1, a1, m1, d1, w2, a2, m2, d2. repeat split; assumption.
Defined.

(** X15.  A second chart plotted on the axes of a first one (both line
    colours being ones matplotlib accepts) is drawn over it: the court is
    added once more after the first court, the two new series follow the two
    earlier ones, the title is that of the second call, and the view limits
    are the fixed ones. *)
Theorem second_chart_on_same_axes (lib : Library) (data1 data2 : nat)
    (title1 title2 : string) (ax : option nat)
    (court_color1 court_color2 : string) (court_lw1 court_lw2 : Q)
    (line_color1 line_color2 : string)
    (w w0 : World) (h : nat) (a : Axes) (df1 df2 : list ShotRow) :
  is_color_like lib line_color1 = true →
  is_color_like lib line_color2 = true →
  ax_or_gca ax w = Returns h w0 →
  axes w0 !! h = Some a →
  frames w !! data1 = Some df1 →
  frames w !! data2 = Some df2 →
  ∃ w' a',
    (plot_shot_chart lib data1 title1 ax court_color1 court_lw1 line_color1;;
     plot_shot_chart lib data2 title2 (Some h) court_color2 court_lw2
       line_color2) w = Returns tt w'
    ∧ axes w' !! h = Some a'
    ∧ patches a'
      = patches a ++ court_calls line_color1 court_lw1
        ++ court_calls line_color2 court_lw2
    ∧ collections a'
      = collections a
        ++ [missed_series df1; made_series df1;
            missed_series df2; made_series df2]
    ∧ mpl.title a' = title2
    ∧ xlim a' = (-250, 250)
    ∧ ylim a' = (422.5, -47.5).
Proof.
  intros Hcolor1 Hcolor2 Hax Ha Hdf1 Hdf2.
  destruct (ax_or_gca_frame _ _ _ _ Hax) as [Hframes _].
  eexists _, _.
  split.
  { erewrite bind_returns by (by apply plot_shot_chart_returns).
    erewrite (plot_shot_chart_returns lib data2 title2 (Some h)).
    - by rewrite store_axes_twice.
    - done.
    - done.
    - apply lookup_insert_eq.
    - simpl. by rewrite Hframes. }
  split; [apply lookup_insert_eq|].
  rewrite !patches_shot_chart_on, !collections_shot_chart_on.
  by rewrite <- !app_assoc.
Qed.

Lemma second_chart_example :
  ∃ w' a',
    (plot_shot_chart example.library 0 "first" None "white" 2 "blue";;
     plot_shot_chart example.library 0 "second" (Some 0%nat) "white" 1
       "red") example.world = Returns tt w'
    ∧ axes w' !! 0%nat = Some a'
    ∧ length (patches a') = 24%nat
    ∧ length (collections a') = 4%nat
    ∧ mpl.title a' = "second".
Proof.
  destruct (second_chart_on_same_axes example.library 0 0 "first"
              "second" None "white" "white" 2 1 "blue" "red" example.world
              example.world 0 new_axes example.shots example.shots
              eq_refl eq_refl eq_refl eq_refl eq_refl eq_refl)
    as (w' & a' & Hrun & Ha' & Hps & Hcs & Ht & _).
  exists w', a'. rewrite Hps, Hcs. repeat split; assumption.
Defined.

(** X20.  For a line colour matplotlib does not accept, the plotter raises
    the [ValueError] of line 90 after it has configured the axes: the view
    limits, the title and the tick labels are set, but no patch and no
    series has been added, the legend is what it was, and no frame has been
    read or changed. *)
Theorem plot_shot_chart_rejects_color (lib : Library) (data : nat)
    (title : string) (ax : option nat) (court_color : string) (court_lw : Q)
    (line_color : string) (w w0 : World) (h : nat) (a : Axes) :
  is_color_like lib line_color = false →
  ax_or_gca ax w = Returns h w0 →
  axes w0 !! h = Some a →
  ∃ w' a',
    plot_shot_chart lib data title ax court_color court_lw line_color w
    = Raises (ValueError (color_error lib line_color)) w'
    ∧ axes w' !! h = Some a'
    ∧ children a' = children a
    ∧ legend_ a' = legend_ a
    ∧ xlim a' = (-250, 250)
    ∧ ylim a' = (422.5, -47.5)
    ∧ mpl.title a' = title
    ∧ labelbottom a' = false ∧ labelleft a' = false
    ∧ frames w' = frames w.
Proof.
  intros Hcolor Hax Ha.
  destruct (ax_or_gca_frame _ _ _ _ Hax) as [Hframes _].
  exists (store_axes h (configured title a) w0), (configured title a).
  split; [by apply plot_shot_chart_raises|].
  split; [apply lookup_insert_eq|].
  by repeat split.
Qed.

Lemma plot_shot_chart_rejects_color_example :
  ∃ w' a',
    plot_shot_chart example.library 0 "t" (Some 0%nat) "white" 2 "bleu"
      example.world
    = Raises (ValueError "Invalid RGBA argument: 'bleu'") w'
    ∧ axes w' !! 0%nat = Some a'
    ∧ children a' = []
    ∧ legend_ a' = None
    ∧ xlim a' = (-250, 250).
Proof.
  destruct (plot_shot_chart_rejects_color example.library 0 "t" (Some 0%nat)
              "white" 2 "bleu" example.world example.world 0 new_axes
              eq_refl eq_refl eq_refl)
    as (w' & a' & Hrun & Ha' & Hc & Hl & Hx & _).
  exists w', a'. repeat split; assumption.
Defined.

(** * Properties of the script *)

Lemma script_bind_returns {A B : Type} (m : Script A) (k : A → Script B)
    (p p' : Process) (a : A) :
  m p = Some (inr a, p') → (m ≫= k) p = k a p'.
Proof. intros H. unfold mbind, script_mbind, script_bind. by rewrite H. Qed.

Lemma script_bind_raises {A B : Type} (m : Script A) (k : A → Script B)
    (p p' : Process) (e : PyExn) :
  m p = Some (inl e, p') → (m ≫= k) p = Some (inl e, p').
Proof. intros H. unfold mbind, script_mbind, script_bind. by rewrite H. Qed.

(** The line colour of the script is one of the named colours. *)
Lemma blue_accepted (lib : Library) : is_color_like lib "blue" = true.
Proof. reflexivity. Qed.

(** X16.  The command line: a missing player name defaults to "Zach Edey",
    a missing season to "2024-25" (also when [argv] is empty), and arguments
    after the second are ignored. *)
Theorem main_argument_defaults (lib : Library)
    (provider : Provider (list ShotRow))
    (script player_name season_id : string) (rest : list string)
    (p : Process) :
  main lib provider [] p
  = main lib provider [script; "Zach Edey"; "2024-25"] p
  ∧ main lib provider [script] p
    = main lib provider [script; "Zach Edey"; "2024-25"] p
  ∧ main lib provider [script; player_name] p
    = main lib provider [script; player_name; "2024-25"] p
  ∧ main lib provider (script :: player_name :: season_id :: rest) p
    = main lib provider [script; player_name; season_id] p.
Proof.
  unfold main, argv_or. repeat split.
Qed.

(** X17.  When the retriever raises, the script ends with that exception
    before it has opened a figure: the object store is what it was, no figure
    has been added and nothing is shown. *)
Theorem main_fails_before_drawing (lib : Library)
    (provider : Provider (list ShotRow))
    (script player_name season_id : string) (rest : list string)
    (p : Process) (e : PyExn) (tr : list Request) :
  get_player_shotchartdetail provider player_name season_id (requests p)
  = (inl e, tr) →
  main lib provider (script :: player_name :: season_id :: rest) p
  = Some (inl e, MkProcess tr (objects p) (figures p) (shown p)).
Proof.
  intros Hfetch. unfold main, argv_or.
  rewrite !bool_decide_eq_true_2 by (simpl; lia).
  do 2 (erewrite script_bind_returns by reflexivity).
  apply script_bind_raises. unfold fetching. by rewrite Hfetch.
Qed.

Lemma main_fails_example :
  main example.library example.provider
    ["nba_shotchart.py"; "Zach Edey"; "1999-00"] initial_process
  = Some (inl SeasonNotFound,
          MkProcess [ReqPlayers; ReqCareer 1641744] (MkWorld ∅ ∅ None) []
            false).
Proof.
  exact (main_fails_before_drawing example.library example.provider
           "nba_shotchart.py" "Zach Edey" "1999-00" [] initial_process
           SeasonNotFound [ReqPlayers; ReqCareer 1641744] eq_refl).
Defined.

(** X18.  When the retriever returns, the script returns too: it has opened
    one more figure, of size 12 by 11, and shown it; the chart of the first
    returned frame, titled "<player> Shot Chart <season>" and drawn with
    blue lines of width 2, is on an axes that did not exist before and is
    now current; the second returned frame is not used, and the axes and
    frames that existed before are untouched. *)
Theorem main_draws_the_chart (lib : Library)
    (provider : Provider (list ShotRow))
    (script player_name season_id : string) (rest : list string)
    (p : Process) (shots league : list ShotRow) (tr : list Request) :
  get_player_shotchartdetail provider player_name season_id (requests p)
  = (inr (shots, league), tr) →
  ∃ d h w',
    main lib provider (script :: player_name :: season_id :: rest) p
    = Some (inr tt, MkProcess tr w' (figures p ++ [(12, 11)]) true)
    ∧ frames (objects p) !! d = None
    ∧ frames w' !! d = Some shots
    ∧ axes (objects p) !! h = None
    ∧ current_axes w' = Some h
    ∧ axes w' !! h
      = Some (shot_chart_on shots
                (player_name +:+ " Shot Chart " +:+ season_id) 2 "blue"
                new_axes)
    ∧ (∀ d', d' ≠ d → frames w' !! d' = frames (objects p) !! d')
    ∧ (∀ h', h' ≠ h → axes w' !! h' = axes (objects p) !! h').
Proof.
  intros Hfetch.
  set (d := fresh (dom (frames (objects p)))).
  set (h := fresh (dom (axes (objects p)))).
  set (w1 := MkWorld (<[d := shots]> (frames (objects p))) (axes (objects p))
               None).
  set (w0 := MkWorld (frames w1) (<[h := new_axes]> (axes w1)) (Some h)).
  exists d, h, (store_axes h
                  (shot_chart_on shots
                     (player_name +:+ " Shot Chart " +:+ season_id) 2 "blue"
                     new_axes) w0).
  split.
  { unfold main, argv_or.
    rewrite !bool_decide_eq_true_2 by (simpl; lia).
    do 2 (erewrite script_bind_returns by reflexivity).
    erewrite script_bind_returns by (unfold fetching; by rewrite Hfetch).
    simpl.
    do 2 (erewrite script_bind_returns by reflexivity).
    erewrite script_bind_returns.
    2:{ unfold plotting. simpl.
        erewrite (plot_shot_chart_returns lib d _ None "white" 2 "blue"
                    w1 w0 h new_axes shots);
          [reflexivity|apply blue_accepted|done|..].
        - apply lookup_insert_eq.
        - apply lookup_insert_eq. }
    done. }
  split; [apply not_elem_of_dom, is_fresh|].
  split; [apply lookup_insert_eq|].
  split; [apply not_elem_of_dom, is_fresh|].
  split; [done|]. split; [apply lookup_insert_eq|].
  split.
  - intros d' Hne. simpl. by rewrite lookup_insert_ne.
  - intros h' Hne. simpl. by rewrite !lookup_insert_ne.
Qed.

Lemma main_draws_the_chart_example :
  ∃ d h w',
    main example.library example.provider ["nba_shotchart.py"]
      initial_process
    = Some (inr tt,
            MkProcess
              [ReqPlayers; ReqCareer 1641744;
               ReqShotChart
                 (MkShotQuery 1610612763 1641744 "Regular Season" "2024-25"
                    "FGA")]
              w' [(12, 11)] true)
    ∧ frames w' !! d = Some example.shots
    ∧ current_axes w' = Some h
    ∧ axes w' !! h
      = Some (shot_chart_on example.shots "Zach Edey Shot Chart 2024-25" 2
                "blue" new_axes).
Proof.
  destruct (main_draws_the_chart example.library example.provider
              "nba_shotchart.py" "Zach Edey" "2024-25" [] initial_process
              example.shots []
              [ReqPlayers; ReqCareer 1641744;
               ReqShotChart
                 (MkShotQuery 1610612763 1641744 "Regular Season" "2024-25"
                    "FGA")] eq_refl)
    as (d & h & w' & Hrun & _ & Hd & _ & Hcur & Hh & _).
  exists d, h, w'. repeat split; assumption.
Defined.
